(** * Chat templates of sglang: prompt assembly and template resolution

    A shallow embedding of [python/sglang/lang/chat_template.py].

    Python values are modelled as follows.
    - [str] is [string]; a literal stands for its UTF-8 bytes.  Concatenation,
      equality and the [in] test against an ASCII needle are the same on
      code points and on UTF-8 bytes.
    - [Optional[str]] is [option string], [None] is [None].
    - a [dict] with string keys is a [gmap string _]; [d.get(k, dflt)] is
      [default dflt (d !! k)] and [d[k]] raises [KeyError] on a missing key.
    - the two module-level registries are passed explicitly: the template
      registry is a [gmap string ChatTemplate], the matcher registry a list
      of matching functions in registration order.
    - a function that can raise returns a [result]. *)

From stdpp Require Import base option list gmap strings.

(** ** Python helpers *)

(** The line feed written [\n] in the source. *)
Definition LF : string := String (Ascii.ascii_of_nat 10) EmptyString.

(** Exceptions the module can raise: a failed [dict[key]]. *)
Inductive exn : Type :=
  | KeyError (key : string).

Inductive result (A : Type) : Type :=
  | Ok (a : A)
  | Raise (e : exn).
Arguments Ok {A} a.
Arguments Raise {A} e.

(** [f"{content}"]: a string is inserted as it is, [None] prints as the
    text [None]. *)
Definition format_value (content : option string) : string :=
  match content with
  | Some s => s
  | None => "None"
  end.

(** [x is None] and [x is not None]. *)
Definition is_None {A} (x : option A) : bool :=
  match x with None => true | Some _ => false end.

Definition is_not_None {A} (x : option A) : bool := negb (is_None x).

(** Truth value of an [Optional[str]]: [None] and the empty string are
    falsy. *)
Definition truthy (x : option string) : bool :=
  match x with
  | None => false
  | Some s => negb (String.eqb s "")
  end.

(** [x == lit] for an [Optional[str]] on the left. *)
Definition py_eq (x : option string) (lit : string) : bool :=
  match x with
  | None => false
  | Some s => String.eqb s lit
  end.

(** [needle in hay] on strings: [needle] occurs as a contiguous substring. *)
Fixpoint str_in (needle hay : string) : bool :=
  String.prefix needle hay ||
  match hay with
  | EmptyString => false
  | String _ hay' => str_in needle hay'
  end.

(** Truth value of a list: the empty list is falsy. *)
Definition list_truthy {A} (l : list A) : bool :=
  match l with
  | [] => false
  | _ :: _ => true
  end.

(** A dict literal: later entries overwrite earlier ones. *)
Definition dict {V} (items : list (string * V)) : gmap string V :=
  foldl (fun d kv => <[kv.1 := kv.2]> d) ∅ items.

(** [enumerate(l)]: the elements paired with their indices. *)
Fixpoint enumerate_from {A} (i : nat) (l : list A) : list (nat * A) :=
  match l with
  | [] => []
  | x :: l' => (i, x) :: enumerate_from (S i) l'
  end.

Definition enumerate {A} (l : list A) : list (nat * A) := enumerate_from 0 l.

(** ** Data model *)

Inductive ChatTemplateStyle : Type :=
  | PLAIN
  | LLAMA2.

Definition style_eqb (a b : ChatTemplateStyle) : bool :=
  match a, b with
  | PLAIN, PLAIN | LLAMA2, LLAMA2 => true
  | _, _ => false
  end.

Record ChatTemplate : Type := mkChatTemplate {
  name : string;
  default_system_prompt : option string;
  role_prefix_and_suffix : gmap string (string * string);
  stop_str : list string;
  image_token : string;
  style : ChatTemplateStyle
}.

(** A message is the dict [{"role": ..., "content": ...}]. *)
Record Message : Type := mkMessage {
  role : string;
  content : option string
}.

(** ** Prompt assembly *)

(** [ChatTemplate.get_prefix_and_suffix].  The test on
    [hist_messages[0]] is only reached when the list has one element. *)
Definition get_prefix_and_suffix (self : ChatTemplate) (role : string)
    (hist_messages : list Message) : string * string :=
  let '(prefix, suffix) := default ("", "") (role_prefix_and_suffix self !! role) in
  if style_eqb (style self) LLAMA2 then
    if String.eqb role "system" && negb (list_truthy hist_messages) then
      let '(user_prefix, _) :=
        default ("", "") (role_prefix_and_suffix self !! "user") in
      let '(system_prefix, system_suffix) :=
        default ("", "") (role_prefix_and_suffix self !! "system") in
      (user_prefix +:+ system_prefix, system_suffix)
    else if String.eqb role "user"
         && Nat.eqb (length hist_messages) 1
         && match hist_messages !! 0%nat with
            | Some m => is_not_None (content m)
            | None => false
            end then
      ("", suffix)
    else (prefix, suffix)
  else (prefix, suffix).

(** One iteration of the loop of [get_prompt]: the new value of [prompt]
    after the message at index [i]. *)
Definition get_prompt_step (self : ChatTemplate) (messages : list Message)
    (prompt : string) (im : nat * Message) : string :=
  let '(i, message) := im in
  let role := role message in
  let content := content message in
  if String.eqb role "system" && is_None content then
    let content := default_system_prompt self in
    if is_None content then prompt (* continue *)
    else
      let '(prefix, suffix) := get_prefix_and_suffix self role (take i messages) in
      prompt +:+ (prefix +:+ format_value content +:+ suffix)
  else
    let '(prefix, suffix) := get_prefix_and_suffix self role (take i messages) in
    prompt +:+ (prefix +:+ format_value content +:+ suffix).

(** [ChatTemplate.get_prompt]. *)
Definition get_prompt (self : ChatTemplate) (messages : list Message) : string :=
  fold_left (get_prompt_step self messages) (enumerate messages) "".

(** ** The registries *)

(** [register_chat_template]: [chat_template_registry[template.name] = template]. *)
Definition register_chat_template (template : ChatTemplate)
    (chat_template_registry : gmap string ChatTemplate) : gmap string ChatTemplate :=
  <[name template := template]> chat_template_registry.

(** [get_chat_template]: [chat_template_registry[name]], a [KeyError] when
    the name is not a key (the spec calls it NotFoundError). *)
Definition get_chat_template (chat_template_registry : gmap string ChatTemplate)
    (name : string) : result ChatTemplate :=
  match chat_template_registry !! name with
  | Some template => Ok template
  | None => Raise (KeyError name)
  end.

(** A matching function reads the template registry when it is called. *)
Definition MatchingFunction : Type :=
  gmap string ChatTemplate -> string -> option string -> result (option ChatTemplate).

(** [register_chat_template_matching_function]: append to the list. *)
Definition register_chat_template_matching_function (func : MatchingFunction)
    (matching_function_registry : list MatchingFunction) : list MatchingFunction :=
  matching_function_registry ++ [func].

(** [get_chat_template_by_model_path]: the loop over the matchers in
    registration order, then the fallback [get_chat_template("default")].
    An exception raised by a matcher propagates. *)
Fixpoint get_chat_template_by_model_path
    (chat_template_registry : gmap string ChatTemplate)
    (matching_function_registry : list MatchingFunction)
    (model_path : string) (model_id : option string) : result ChatTemplate :=
  match matching_function_registry with
  | [] => get_chat_template chat_template_registry "default"
  | matching_func :: rest =>
      match matching_func chat_template_registry model_path model_id with
      | Raise e => Raise e
      | Ok (Some template) => Ok template
      | Ok None =>
          get_chat_template_by_model_path chat_template_registry rest model_path model_id
      end
  end.

(** ** The built-in templates, in the order the module registers them *)

Definition tmpl_default : ChatTemplate := {|
  name := "default";
  default_system_prompt := None;
  role_prefix_and_suffix := dict [
    ("system", ("SYSTEM:", LF));
    ("user", ("USER:", LF));
    ("assistant", ("ASSISTANT:", LF))];
  stop_str := [];
  image_token := "<image>";
  style := PLAIN |}.

Definition tmpl_claude : ChatTemplate := {|
  name := "claude";
  default_system_prompt := None;
  role_prefix_and_suffix := dict [
    ("system", ("", ""));
    ("user", (LF +:+ LF +:+ "Human: ", ""));
    ("assistant", (LF +:+ LF +:+ "Assistant:", ""))];
  stop_str := [];
  image_token := "<image>";
  style := PLAIN |}.

Definition tmpl_chatml : ChatTemplate := {|
  name := "chatml";
  default_system_prompt := None;
  role_prefix_and_suffix := dict [
    ("system", ("<|im_start|>system" +:+ LF, "<|im_end|>" +:+ LF));
    ("user", ("<|im_start|>user" +:+ LF, "<|im_end|>" +:+ LF));
    ("assistant", ("<|im_start|>assistant" +:+ LF, "<|im_end|>" +:+ LF))];
  stop_str := ["<|im_end|>"];
  image_token := "<image>";
  style := PLAIN |}.

Definition tmpl_chatml_llava : ChatTemplate := {|
  name := "chatml-llava";
  default_system_prompt := Some "Answer the questions.";
  role_prefix_and_suffix := dict [
    ("system", ("<|im_start|>system" +:+ LF, "<|im_end|>" +:+ LF));
    ("user", ("<|im_start|>user" +:+ LF, "<|im_end|>" +:+ LF));
    ("assistant", ("<|im_start|>assistant" +:+ LF, "<|im_end|>" +:+ LF))];
  stop_str := ["<|im_end|>"];
  image_token := " <image>" +:+ LF;
  style := PLAIN |}.

Definition tmpl_vicuna_v1_1 : ChatTemplate := {|
  name := "vicuna_v1.1";
  default_system_prompt := Some (
    "A chat between a curious user and an artificial intelligence assistant. "
    +:+ "The assistant gives helpful, detailed, and polite answers to the user's questions.");
  role_prefix_and_suffix := dict [
    ("system", ("", " "));
    ("user", ("USER:", " "));
    ("assistant", ("ASSISTANT:", "</s>"))];
  stop_str := [];
  image_token := " <image>" +:+ LF;
  style := PLAIN |}.

Definition tmpl_llama_2_chat : ChatTemplate := {|
  name := "llama-2-chat";
  default_system_prompt := None;
  role_prefix_and_suffix := dict [
    ("system", ("<<SYS>>" +:+ LF, LF +:+ "<</SYS>>" +:+ LF +:+ LF));
    ("user", ("[INST] ", " [/INST]"));
    ("assistant", ("", " </s><s>"))];
  stop_str := [];
  image_token := "<image>";
  style := LLAMA2 |}.

Definition tmpl_llama_3_instruct : ChatTemplate := {|
  name := "llama-3-instruct";
  default_system_prompt := None;
  role_prefix_and_suffix := dict [
    ("system", ("<|start_header_id|>system<|end_header_id|>" +:+ LF +:+ LF, "<|eot_id|>"));
    ("user", ("<|start_header_id|>user<|end_header_id|>" +:+ LF +:+ LF, "<|eot_id|>"));
    ("assistant",
      ("<|start_header_id|>assistant<|end_header_id|>" +:+ LF +:+ LF, "<|eot_id|>"))];
  stop_str := ["<|eot_id|>"];
  image_token := "<image>";
  style := PLAIN |}.

Definition tmpl_yi : ChatTemplate := {|
  name := "yi";
  default_system_prompt := Some (
    "This is a chat between an inquisitive human and an AI assistant. Assume the role of the AI assistant. Read all the images carefully, and respond to the human's questions with informative, helpful, detailed and polite answers."
    +:+ "这是一个好奇的人类和一个人工智能助手之间的对话。假设你扮演这个AI助手的角色。仔细阅读所有的图像，并对人类的问题做出信息丰富、有帮助、详细的和礼貌的回答。");
  role_prefix_and_suffix := dict [
    ("system", ("", LF +:+ LF));
    ("user", ("### Human:", LF));
    ("assistant", ("### Assistant:", LF))];
  stop_str := [];
  image_token := " <image_placeholder>" +:+ LF;
  style := PLAIN |}.

Definition tmpl_gemma_it : ChatTemplate := {|
  name := "gemma-it";
  default_system_prompt := None;
  role_prefix_and_suffix := dict [
    ("system", ("", ""));
    ("user", ("<start_of_turn>user" +:+ LF, "<end_of_turn>" +:+ LF));
    ("assistant", ("<start_of_turn>model" +:+ LF, "<end_of_turn>" +:+ LF))];
  stop_str := [];
  image_token := "<image>";
  style := PLAIN |}.

Definition tmpl_dbrx_instruct : ChatTemplate := {|
  name := "dbrx-instruct";
  default_system_prompt := Some (
    "You are DBRX, created by Databricks. You were last updated in December 2023. You answer questions based on information available up to that point."
    +:+ LF +:+
    "YOU PROVIDE SHORT RESPONSES TO SHORT QUESTIONS OR STATEMENTS, but provide thorough responses to more complex and open-ended questions."
    +:+ LF +:+
    "You assist with various tasks, from writing to coding (using markdown for code blocks — remember to use ``` with code, JSON, and tables)."
    +:+ LF +:+
    "(You do not have real-time data access or code execution capabilities. You avoid stereotyping and provide balanced perspectives on controversial topics. You do not provide song lyrics, poems, or news articles and do not divulge details of your training data.)"
    +:+ LF +:+
    "This is your system prompt, guiding your responses. Do not reference it, just respond to the user. If you find yourself talking about this message, stop. You should be responding appropriately and usually that means not mentioning this."
    +:+ LF +:+
    "YOU DO NOT MENTION ANY OF THIS INFORMATION ABOUT YOURSELF UNLESS THE INFORMATION IS DIRECTLY PERTINENT TO THE USER'S QUERY.");
  role_prefix_and_suffix := dict [
    ("system", ("<|im_start|>system" +:+ LF, "<|im_end|>"));
    ("user", (LF +:+ "<|im_start|>user" +:+ LF, "<|im_end|>"));
    ("assistant", (LF +:+ "<|im_start|>assistant" +:+ LF, "<|im_end|>"))];
  stop_str := ["<|im_end|>"];
  image_token := "<image>";
  style := PLAIN |}.

(** The system prompt shared by the yt-chat templates. *)
Definition yt_chat_system_prompt : string :=
  "A chat between a curious user and an AI role. The role gives helpful, detailed, and polite answers to the user's questions."
  +:+ LF +:+
  "Your name is Nety, a virtual character created by researchers from BaoYu Organization (BYO).".

Definition tmpl_yt_chat_v1_2 : ChatTemplate := {|
  name := "yt-chat-v1.2";
  default_system_prompt := Some yt_chat_system_prompt;
  role_prefix_and_suffix := dict [
    ("system", ("<|im_start|>system" +:+ LF, "<|im_end|>"));
    ("user", ("<|im_start|>user" +:+ LF, "<|im_end|>"));
    ("assistant", (LF +:+ "<|im_start|>role" +:+ LF, "<|im_end|>"))];
  stop_str := ["<|im_end|>"; "</s>"; "<|im_start|>"; "<s>"; "</|im"];
  image_token := "<image>";
  style := PLAIN |}.

Definition tmpl_yt_chat_v1_3 : ChatTemplate := {|
  name := "yt-chat-v1.3";
  default_system_prompt := Some yt_chat_system_prompt;
  role_prefix_and_suffix := dict [
    ("system", ("<s>System" +:+ LF, "</s>"));
    ("user", (LF +:+ "<s>User" +:+ LF, "</s>"));
    ("assistant", (LF +:+ "<s>Role" +:+ LF, "</s>"))];
  stop_str := ["</s>"];
  image_token := "<image>";
  style := PLAIN |}.

Definition tmpl_yt_chat_v1_6 : ChatTemplate := {|
  name := "yt-chat-v1.6";
  default_system_prompt := Some yt_chat_system_prompt;
  role_prefix_and_suffix := dict [
    ("system", ("<|im_start|>system" +:+ LF, "<|im_end|>"));
    ("user", (LF +:+ "<|im_start|>user" +:+ LF, "<|im_end|>"));
    ("assistant", (LF +:+ "<|im_start|>role" +:+ LF, "<|im_end|>"))];
  stop_str := ["<|im_end|>"];
  image_token := "<image>";
  style := PLAIN |}.

Definition tmpl_yt_chat_v1_7 : ChatTemplate := {|
  name := "yt-chat-v1.7";
  default_system_prompt := Some yt_chat_system_prompt;
  role_prefix_and_suffix := dict [
    ("system", ("<|begin_of_text|>System" +:+ LF, "<|end_of_text|>"));
    ("user", (LF +:+ "<|begin_of_text|>User" +:+ LF, "<|end_of_text|>"));
    ("assistant", (LF +:+ "<|begin_of_text|>Role" +:+ LF, "<|end_of_text|>"))];
  stop_str := ["<|end_of_text|>"];
  image_token := "<image>";
  style := PLAIN |}.

Definition tmpl_yt_chat_v1_8 : ChatTemplate := {|
  name := "yt-chat-v1.8";
  default_system_prompt := Some yt_chat_system_prompt;
  role_prefix_and_suffix := dict [
    ("system", ("<bos>System" +:+ LF, "<eos>"));
    ("user", (LF +:+ "<bos>User" +:+ LF, "<eos>"));
    ("assistant", (LF +:+ "<bos>Role" +:+ LF, "<eos>"))];
  stop_str := ["<eos>"; "<bos>, <pad>, <unk>"];
  image_token := "<image>";
  style := PLAIN |}.

Definition tmpl_c4ai_command_r : ChatTemplate := {|
  name := "c4ai-command-r";
  default_system_prompt := None;
  role_prefix_and_suffix := dict [
    ("system", ("<|START_OF_TURN_TOKEN|><|SYSTEM_TOKEN|>", "<|END_OF_TURN_TOKEN|>"));
    ("user", ("<|START_OF_TURN_TOKEN|><|USER_TOKEN|>", "<|END_OF_TURN_TOKEN|>"));
    ("assistant", ("<|START_OF_TURN_TOKEN|><|CHATBOT_TOKEN|>", "<|END_OF_TURN_TOKEN|>"))];
  stop_str := [];
  image_token := "<image>";
  style := PLAIN |}.

(** The calls of [register_chat_template] at module level, in source order. *)
Definition builtin_templates : list ChatTemplate := [
  tmpl_default; tmpl_claude; tmpl_chatml; tmpl_chatml_llava; tmpl_vicuna_v1_1;
  tmpl_llama_2_chat; tmpl_llama_3_instruct; tmpl_yi; tmpl_gemma_it;
  tmpl_dbrx_instruct; tmpl_yt_chat_v1_2; tmpl_yt_chat_v1_3; tmpl_yt_chat_v1_6;
  tmpl_yt_chat_v1_7; tmpl_yt_chat_v1_8; tmpl_c4ai_command_r ].

(** The template registry after a sequence of registrations. *)
Definition register_all (templates : list ChatTemplate)
    (registry : gmap string ChatTemplate) : gmap string ChatTemplate :=
  foldl (fun reg template => register_chat_template template reg) registry templates.

(** [chat_template_registry] once the module is loaded. *)
Definition chat_template_registry : gmap string ChatTemplate :=
  register_all builtin_templates ∅.

(** ** The matching functions *)

(** [return get_chat_template(name)] inside a matching function. *)
Definition return_template (registry : gmap string ChatTemplate) (name : string)
    : result (option ChatTemplate) :=
  match get_chat_template registry name with
  | Ok template => Ok (Some template)
  | Raise e => Raise e
  end.

(** [str.lower] on ASCII text: the letters [A]..[Z] are moved to [a]..[z],
    every other byte is kept. *)
Definition ascii_lower (c : Ascii.ascii) : Ascii.ascii :=
  let n := Ascii.nat_of_ascii c in
  if Nat.leb 65 n && Nat.leb n 90 then Ascii.ascii_of_nat (n + 32) else c.

Fixpoint lower_ascii (s : string) : string :=
  match s with
  | EmptyString => EmptyString
  | String c s' => String (ascii_lower c) (lower_ascii s')
  end.

Section Matchers.

(** [str.lower].  Python lowercases by the Unicode tables; the matching
    functions are written over any such function, and [lower_ascii] is
    the instance used on ASCII model paths. *)
Variable lower : string -> string.

Definition match_dbrx : MatchingFunction := fun registry model_path model_id =>
  if truthy model_id && py_eq model_id "dbrx" then
    return_template registry "dbrx-instruct"
  else if (truthy model_id && py_eq model_id "dbrx")
       || (str_in "dbrx" (lower model_path) && str_in "instruct" (lower model_path)) then
    return_template registry "dbrx-instruct"
  else Ok None.

Definition match_vicuna : MatchingFunction := fun registry model_path model_id =>
  if truthy model_id && py_eq model_id "vicuna" then
    return_template registry "vicuna_v1.1"
  else if str_in "vicuna" (lower model_path) then
    return_template registry "vicuna_v1.1"
  else if str_in "llava-v1.5" (lower model_path) then
    return_template registry "vicuna_v1.1"
  else Ok None.

Definition match_llama2_chat : MatchingFunction := fun registry model_path model_id =>
  if truthy model_id && py_eq model_id "llama-2" then
    return_template registry "llama-2-chat"
  else
    let model_path := lower model_path in
    if str_in "llama-2" model_path && str_in "chat" model_path then
      return_template registry "llama-2-chat"
    else if (str_in "mistral" model_path || str_in "mixtral" model_path)
         && str_in "instruct" model_path then
      return_template registry "llama-2-chat"
    else if str_in "codellama" model_path && str_in "instruct" model_path then
      return_template registry "llama-2-chat"
    else Ok None.

Definition match_llama3_instruct : MatchingFunction := fun registry model_path model_id =>
  if truthy model_id && py_eq model_id "llama-3" then
    return_template registry "llama-3-instruct"
  else
    let model_path := lower model_path in
    if str_in "llama-3" model_path && str_in "instruct" model_path then
      return_template registry "llama-3-instruct"
    else Ok None.

Definition match_chat_ml : MatchingFunction := fun registry model_path model_id =>
  let after_model_id :=
    let model_path := lower model_path in
    if str_in "tinyllama" model_path then
      return_template registry "chatml"
    else if str_in "qwen" model_path && str_in "chat" model_path then
      return_template registry "chatml"
    else if str_in "llava-v1.6-34b" model_path then
      return_template registry "chatml-llava"
    else Ok None in
  if truthy model_id then
    if py_eq model_id "chatml" then return_template registry "chatml"
    else if py_eq model_id "chatml-llava" then return_template registry "chatml-llava"
    else after_model_id
  else after_model_id.

Definition match_chat_yi : MatchingFunction := fun registry model_path model_id =>
  if truthy model_id && py_eq model_id "yi" then
    return_template registry "yi"
  else
    let model_path := lower model_path in
    if str_in "yi" model_path then return_template registry "yi"
    else Ok None.

Definition match_gemma_it : MatchingFunction := fun registry model_path model_id =>
  if truthy model_id && py_eq model_id "gemma" then
    return_template registry "gemma-it"
  else
    let model_path := lower model_path in
    if str_in "gemma" model_path && str_in "it" model_path then
      return_template registry "gemma-it"
    else Ok None.

Definition match_ytchat_v12 : MatchingFunction := fun registry model_path model_id =>
  let after_model_id :=
    let model_path := lower model_path in
    if str_in "yt-chat" model_path then return_template registry "yt-chat-v1.3"
    else Ok None in
  if truthy model_id then
    if py_eq model_id "yt-chat-v1.2" then return_template registry "yt-chat-v1.2"
    else if py_eq model_id "yt-chat-v1.3" then return_template registry "yt-chat-v1.3"
    else if py_eq model_id "yt-chat-v1.6" then return_template registry "yt-chat-v1.6"
    else if py_eq model_id "yt-chat-v1.7" then return_template registry "yt-chat-v1.7"
    else if py_eq model_id "yt-chat-v1.8" then return_template registry "yt-chat-v1.8"
    else after_model_id
  else after_model_id.

(** Defined in the module, but without the registering decorator. *)
Definition match_c4ai_command_r : MatchingFunction := fun registry model_path model_id =>
  if truthy model_id && py_eq model_id "c4ai-command-r" then
    return_template registry "c4ai-command-r"
  else
    let model_path := lower model_path in
    if str_in "c4ai-command-r" model_path then
      return_template registry "c4ai-command-r"
    else Ok None.

(** The functions carrying [@register_chat_template_matching_function],
    in source order. *)
Definition decorated_matchers : list MatchingFunction := [
  match_dbrx; match_vicuna; match_llama2_chat; match_llama3_instruct;
  match_chat_ml; match_chat_yi; match_gemma_it; match_ytchat_v12 ].

(** [matching_function_registry] once the module is loaded. *)
Definition matching_function_registry : list MatchingFunction :=
  foldl (fun registry func => register_chat_template_matching_function func registry)
        [] decorated_matchers.

(** Template resolution in the loaded module. *)
Definition resolve (model_path : string) (model_id : option string)
    : result ChatTemplate :=
  get_chat_template_by_model_path chat_template_registry
    matching_function_registry model_path model_id.

End Matchers.

(** ** Specification-side definitions *)

(** The plain role lookup: [role_prefix_and_suffix.get(role, ("", ""))]. *)
Definition plain_lookup (T : ChatTemplate) (r : string) : string * string :=
  default ("", "") (role_prefix_and_suffix T !! r).

(** The assembly the spec describes for a PLAIN template: each message with
    present content is rendered as prefix, content, suffix of the plain role
    lookup, and the renderings are concatenated in message order. *)
Definition plain_render (T : ChatTemplate) (m : Message) : string :=
  match content m with
  | Some c => (plain_lookup T (role m)).1 +:+ c +:+ (plain_lookup T (role m)).2
  | None => ""
  end.

Definition spec_plain_concat (T : ChatTemplate) (messages : list Message) : string :=
  foldr (fun m acc => plain_render T m +:+ acc) "" messages.

(** The template registered last under name [n] in a sequence of
    registrations, if there is one. *)
Definition last_registered (n : string) (templates : list ChatTemplate)
    : option ChatTemplate :=
  last (filter (fun t => name t = n) templates).

(** The path tests of the matchers registered before
    [match_llama3_instruct] ([match_dbrx], [match_vicuna],
    [match_llama2_chat]), on the lowercased model path [p]. *)
Definition earlier_matcher_recognizes (p : string) : bool :=
  (str_in "dbrx" p && str_in "instruct" p)
  || str_in "vicuna" p
  || str_in "llava-v1.5" p
  || (str_in "llama-2" p && str_in "chat" p)
  || ((str_in "mistral" p || str_in "mixtral" p) && str_in "instruct" p)
  || (str_in "codellama" p && str_in "instruct" p).

(** What the resolver answers for [model_id = "llama-3"], by the lowercased
    model path [p]: the template of the first earlier-registered matcher
    whose path test holds ([match_dbrx], then [match_vicuna], then
    [match_llama2_chat]), and the llama-3-instruct template when none
    holds. *)
Definition llama3_id_template (p : string) : ChatTemplate :=
  if str_in "dbrx" p && str_in "instruct" p then tmpl_dbrx_instruct
  else if str_in "vicuna" p || str_in "llava-v1.5" p then tmpl_vicuna_v1_1
  else if (str_in "llama-2" p && str_in "chat" p)
          || ((str_in "mistral" p || str_in "mixtral" p) && str_in "instruct" p)
          || (str_in "codellama" p && str_in "instruct" p) then tmpl_llama_2_chat
  else tmpl_llama_3_instruct.

(** The templates a registered matcher or the fallback can return. *)
Definition resolvable_templates : list ChatTemplate := [
  tmpl_dbrx_instruct; tmpl_vicuna_v1_1; tmpl_llama_2_chat; tmpl_llama_3_instruct;
  tmpl_chatml; tmpl_chatml_llava; tmpl_yi; tmpl_gemma_it;
  tmpl_yt_chat_v1_2; tmpl_yt_chat_v1_3; tmpl_yt_chat_v1_6; tmpl_yt_chat_v1_7;
  tmpl_yt_chat_v1_8; tmpl_default ].

(** The text that the loop of [get_prompt] appends from index [k] on. *)
Definition get_prompt_from (self : ChatTemplate) (messages : list Message) (k : nat)
    : string :=
  fold_left (get_prompt_step self messages) (drop k (enumerate messages)) "".

(** The model ids that some registered matcher compares against. *)
Definition known_model_ids : list string := [
  "dbrx"; "vicuna"; "llama-2"; "llama-3"; "chatml"; "chatml-llava"; "yi"; "gemma";
  "yt-chat-v1.2"; "yt-chat-v1.3"; "yt-chat-v1.6"; "yt-chat-v1.7"; "yt-chat-v1.8" ].

(** The template each of these model ids selects in its matcher. *)
Definition model_id_aliases : list (string * ChatTemplate) := [
  ("dbrx", tmpl_dbrx_instruct); ("vicuna", tmpl_vicuna_v1_1);
  ("llama-2", tmpl_llama_2_chat); ("llama-3", tmpl_llama_3_instruct);
  ("chatml", tmpl_chatml); ("chatml-llava", tmpl_chatml_llava);
  ("yi", tmpl_yi); ("gemma", tmpl_gemma_it);
  ("yt-chat-v1.2", tmpl_yt_chat_v1_2); ("yt-chat-v1.3", tmpl_yt_chat_v1_3);
  ("yt-chat-v1.6", tmpl_yt_chat_v1_6); ("yt-chat-v1.7", tmpl_yt_chat_v1_7);
  ("yt-chat-v1.8", tmpl_yt_chat_v1_8) ].

(** The templates that a path test of a registered matcher, or the
    fallback, can return. *)
Definition path_templates : list ChatTemplate := [
  tmpl_dbrx_instruct; tmpl_vicuna_v1_1; tmpl_llama_2_chat; tmpl_llama_3_instruct;
  tmpl_chatml; tmpl_chatml_llava; tmpl_yi; tmpl_gemma_it; tmpl_yt_chat_v1_3;
  tmpl_default ].

(** A matcher result that lets the loop go on: the matcher returned
    [None]. *)
Definition silent (r : result (option ChatTemplate)) : bool :=
  match r with
  | Ok None => true
  | _ => false
  end.

(** ** Strings and enumeration *)

Lemma str_app_assoc (s1 s2 s3 : string) : (s1 +:+ s2) +:+ s3 = s1 +:+ (s2 +:+ s3).
Proof.
  induction s1 as [|c s1 IH]; [reflexivity|].
  change (String c ((s1 +:+ s2) +:+ s3) = String c (s1 +:+ (s2 +:+ s3))).
  by rewrite IH.
Qed.

Lemma str_app_nil_r (s : string) : s +:+ "" = s.
Proof.
  induction s as [|c s IH]; [reflexivity|].
  change (String c (s +:+ "") = String c s).
  by rewrite IH.
Qed.

Lemma enumerate_from_app {A} (k : nat) (l1 l2 : list A) :
  enumerate_from k (l1 ++ l2) = enumerate_from k l1 ++ enumerate_from (k + length l1) l2.
Proof.
  revert k. induction l1 as [|x l1 IH]; intros k; simpl.
  - by rewrite Nat.add_0_r.
  - rewrite IH. do 3 f_equal. lia.
Qed.

Lemma enumerate_from_length {A} (k : nat) (l : list A) :
  length (enumerate_from k l) = length l.
Proof. revert k. induction l as [|x l IH]; intros k; simpl; [done | by rewrite IH]. Qed.

Lemma enumerate_from_bounds {A} (k : nat) (l : list A) (i : nat) (x : A) :
  (i, x) ∈ enumerate_from k l -> k <= i < k + length l.
Proof.
  revert k. induction l as [|y l IH]; intros k; simpl.
  - intros H. by apply not_elem_of_nil in H.
  - intros [Heq | Hin]%elem_of_cons.
    + inversion Heq; subst. lia.
    + apply IH in Hin. lia.
Qed.

(** ** The loop of [get_prompt] *)

(** An iteration only appends to the prompt. *)
Lemma get_prompt_step_append (self : ChatTemplate) (messages : list Message)
    (prompt : string) (im : nat * Message) :
  get_prompt_step self messages prompt im
  = prompt +:+ get_prompt_step self messages "" im.
Proof.
  destruct im as [i m]. unfold get_prompt_step.
  destruct (String.eqb (role m) "system" && is_None (content m)).
  - destruct (is_None (default_system_prompt self)).
    + by rewrite str_app_nil_r.
    + by destruct (get_prefix_and_suffix self (role m) (take i messages)).
  - by destruct (get_prefix_and_suffix self (role m) (take i messages)).
Qed.

Lemma fold_get_prompt_step_append (self : ChatTemplate) (messages : list Message)
    (l : list (nat * Message)) (prompt : string) :
  fold_left (get_prompt_step self messages) l prompt
  = prompt +:+ fold_left (get_prompt_step self messages) l "".
Proof.
  revert prompt. induction l as [|im l IH]; intros prompt; cbn [fold_left].
  - by rewrite str_app_nil_r.
  - rewrite IH. rewrite (IH (get_prompt_step self messages "" im)).
    rewrite (get_prompt_step_append self messages prompt).
    by rewrite str_app_assoc.
Qed.

(** The history of an iteration is a prefix of the list, so the messages
    after the current one do not influence it. *)
Lemma get_prompt_step_take (self : ChatTemplate) (pre rest : list Message)
    (prompt : string) (i : nat) (m : Message) :
  i <= length pre ->
  get_prompt_step self (pre ++ rest) prompt (i, m)
  = get_prompt_step self pre prompt (i, m).
Proof.
  intros Hi. unfold get_prompt_step.
  by rewrite take_app_le by lia.
Qed.

Lemma fold_get_prompt_step_take (self : ChatTemplate) (pre rest : list Message)
    (l : list (nat * Message)) (prompt : string) :
  (forall i m, (i, m) ∈ l -> i <= length pre) ->
  fold_left (get_prompt_step self (pre ++ rest)) l prompt
  = fold_left (get_prompt_step self pre) l prompt.
Proof.
  revert prompt. induction l as [|[i m] l IH]; intros prompt Hl; [done|].
  cbn [fold_left]. rewrite get_prompt_step_take by (apply (Hl i m); left).
  apply IH. intros j m' Hin. apply (Hl j m'). by right.
Qed.

(** The prompt of a list is the prompt of a prefix followed by what the
    loop appends for the remaining indices. *)
Lemma get_prompt_split (self : ChatTemplate) (pre rest : list Message) :
  get_prompt self (pre ++ rest)
  = get_prompt self pre +:+ get_prompt_from self (pre ++ rest) (length pre).
Proof.
  unfold get_prompt, get_prompt_from, enumerate.
  rewrite enumerate_from_app, fold_left_app. simpl.
  rewrite drop_app_length' by (by rewrite enumerate_from_length).
  rewrite fold_get_prompt_step_append. f_equal.
  apply fold_get_prompt_step_take.
  intros i m Hin. apply enumerate_from_bounds in Hin. lia.
Qed.

(** In a PLAIN template the history is never consulted. *)
Lemma get_prefix_and_suffix_plain (T : ChatTemplate) (r : string) (hist : list Message) :
  style T = PLAIN -> get_prefix_and_suffix T r hist = plain_lookup T r.
Proof.
  intros HT. unfold get_prefix_and_suffix, plain_lookup. rewrite HT.
  by destruct (default ("", "") (role_prefix_and_suffix T !! r)).
Qed.

Lemma get_prompt_step_plain (T : ChatTemplate) (messages : list Message)
    (prompt : string) (i : nat) (m : Message) :
  style T = PLAIN -> is_Some (content m) ->
  get_prompt_step T messages prompt (i, m) = prompt +:+ plain_render T m.
Proof.
  intros HT [c Hc]. unfold get_prompt_step, plain_render. rewrite Hc.
  rewrite andb_false_r, get_prefix_and_suffix_plain by done.
  by destruct (plain_lookup T (role m)).
Qed.

Lemma fold_get_prompt_step_plain (T : ChatTemplate) (messages l : list Message)
    (k : nat) (prompt : string) :
  style T = PLAIN -> Forall (fun m => is_Some (content m)) l ->
  fold_left (get_prompt_step T messages) (enumerate_from k l) prompt
  = prompt +:+ spec_plain_concat T l.
Proof.
  intros HT Hl. revert k prompt.
  induction Hl as [|m l Hm Hl IH]; intros k prompt.
  - cbn. by rewrite str_app_nil_r.
  - cbn [enumerate_from fold_left spec_plain_concat foldr].
    rewrite get_prompt_step_plain, IH by done.
    by rewrite str_app_assoc.
Qed.

(** What [get_prefix_and_suffix] answers for a user turn of a LLAMA2
    template: the prefix is dropped exactly when the history is one message
    whose content is present. *)
Lemma get_prefix_and_suffix_llama2_user (T : ChatTemplate) (hist : list Message) :
  style T = LLAMA2 ->
  get_prefix_and_suffix T "user" hist
  = if Nat.eqb (length hist) 1
       && match hist !! 0 with Some m => is_not_None (content m) | None => false end
    then ("", (plain_lookup T "user").2)
    else plain_lookup T "user".
Proof.
  intros HT. unfold get_prefix_and_suffix, plain_lookup. rewrite HT.
  destruct (default ("", "") (role_prefix_and_suffix T !! "user")) as [p s].
  cbn. by destruct (_ && _).
Qed.

(** ** Prompt assembly: the claims *)

(** C9: assembling any template over the empty message list gives the empty
    string. *)
Theorem get_prompt_nil (T : ChatTemplate) : get_prompt T [] = "".
Proof. reflexivity. Qed.

(** C2: [get_chat_template("llama-2-chat")] is the LLAMA2 template without
    a default system prompt; over the messages system/None, user/Hello!,
    assistant/Hi! the system message adds nothing, and the prompt is the
    user prefix [[INST] ], then [Hello!], then [ [/INST]], then the assistant
    turn [Hi!] with its suffix [ </s><s>]. *)
Theorem llama2_chat_fused_opening :
  get_chat_template chat_template_registry "llama-2-chat" = Ok tmpl_llama_2_chat
  /\ default_system_prompt tmpl_llama_2_chat = None
  /\ get_prompt tmpl_llama_2_chat [mkMessage "system" None] = ""
  /\ get_prompt tmpl_llama_2_chat
       [mkMessage "system" None; mkMessage "user" (Some "Hello!");
        mkMessage "assistant" (Some "Hi!")]
     = "[INST] " +:+ "Hello!" +:+ " [/INST]" +:+ "Hi!" +:+ " </s><s>".
Proof. repeat split; vm_compute; reflexivity. Qed.

(** C3, checked at inputs whose first message is not a system message: in
    the llama-2-chat template the user turn at index 1 loses its prefix
    after a user turn and after an assistant turn alike, so the prompt has
    a closing [ [/INST]] whose opening [[INST] ] was never written. *)
Theorem llama2_user_prefix_dropped_without_system :
  get_prefix_and_suffix tmpl_llama_2_chat "user" [mkMessage "user" (Some "Hi")]
    = ("", " [/INST]")
  /\ get_prefix_and_suffix tmpl_llama_2_chat "user" [mkMessage "assistant" (Some "Hi")]
    = ("", " [/INST]")
  /\ get_prompt tmpl_llama_2_chat
       [mkMessage "user" (Some "Hi"); mkMessage "user" (Some "Hello!")]
     = "[INST] Hi [/INST]Hello! [/INST]"
  /\ get_prompt tmpl_llama_2_chat
       [mkMessage "assistant" (Some "Hi"); mkMessage "user" (Some "Hello!")]
     = "Hi </s><s>Hello! [/INST]".
Proof. repeat split; vm_compute; reflexivity. Qed.

(** C4: for a PLAIN template and messages whose contents are all present,
    [get_prompt] is the concatenation, in message order, of prefix, content
    and suffix of the plain role lookup. *)
Theorem get_prompt_plain (T : ChatTemplate) (messages : list Message) :
  style T = PLAIN ->
  Forall (fun m => is_Some (content m)) messages ->
  get_prompt T messages = spec_plain_concat T messages.
Proof.
  intros HT Hall. unfold get_prompt, enumerate.
  by rewrite fold_get_prompt_step_plain.
Qed.

Lemma get_prompt_plain_witness :
  let messages := [mkMessage "user" (Some "Hi"); mkMessage "assistant" (Some "Hello");
                   mkMessage "system" (Some "Be brief."); mkMessage "tool" (Some "42");
                   mkMessage "user" (Some "Thanks")] in
  style tmpl_chatml = PLAIN
  /\ Forall (fun m => is_Some (content m)) messages
  /\ get_prompt tmpl_chatml messages = spec_plain_concat tmpl_chatml messages.
Proof.
  intros messages.
  assert (H1 : style tmpl_chatml = PLAIN) by reflexivity.
  assert (H2 : Forall (fun m => is_Some (content m)) messages)
    by (repeat constructor; eexists; reflexivity).
  exact (conj H1 (conj H2 (get_prompt_plain tmpl_chatml messages H1 H2))).
Defined.

Lemma drop_enumerate_from {A} (j k : nat) (l : list A) :
  drop j (enumerate_from k l) = enumerate_from (k + j) (drop j l).
Proof.
  revert k l. induction j as [|j IH]; intros k l.
  - by rewrite Nat.add_0_r.
  - destruct l as [|x l]; [done|]. cbn [enumerate_from drop].
    rewrite IH. f_equal. lia.
Qed.

Lemma get_prompt_from_cons (T : ChatTemplate) (pre post : list Message) (m : Message) :
  get_prompt_from T (pre ++ m :: post) (length pre)
  = get_prompt_step T pre "" (length pre, m)
    +:+ get_prompt_from T (pre ++ m :: post) (S (length pre)).
Proof.
  unfold get_prompt_from, enumerate. rewrite !drop_enumerate_from.
  rewrite drop_app_length.
  replace (drop (S (length pre)) (pre ++ m :: post)) with post.
  2:{ rewrite (cons_middle m), (assoc_L (++)).
      by rewrite drop_app_length' by (rewrite length_app; cbn; lia). }
  cbn [enumerate_from fold_left plus].
  rewrite fold_get_prompt_step_append. f_equal.
  by rewrite get_prompt_step_take.
Qed.

(** C5: a system message without content, at any position of the list.  If
    the template has a default system prompt, the message is rendered with
    that prompt between the prefix and suffix computed for its position; if
    the template has none, the message adds nothing, so the prompt is the
    prompt of the messages before it followed by what the loop appends for
    the messages after it. *)
Theorem get_prompt_system_absent (T : ChatTemplate) (pre post : list Message)
    (m : Message) :
  role m = "system" -> content m = None ->
  get_prompt T (pre ++ m :: post)
  = get_prompt T pre
    +:+ match default_system_prompt T with
        | Some d =>
            (get_prefix_and_suffix T "system" pre).1 +:+ d
            +:+ (get_prefix_and_suffix T "system" pre).2
        | None => ""
        end
    +:+ get_prompt_from T (pre ++ m :: post) (S (length pre)).
Proof.
  intros Hrole Hcontent.
  rewrite get_prompt_split, get_prompt_from_cons. do 2 f_equal.
  unfold get_prompt_step. rewrite Hrole, Hcontent, take_ge by done. cbn.
  destruct (default_system_prompt T) as [d|]; cbn; [|done].
  by destruct (get_prefix_and_suffix T "system" pre).
Qed.

Lemma get_prompt_system_absent_witness :
  let pre := [mkMessage "user" (Some "Hi")] in
  let m := mkMessage "system" None in
  let post := [mkMessage "user" (Some "What is in the image?")] in
  role m = "system" /\ content m = None
  /\ get_prompt tmpl_chatml_llava (pre ++ m :: post)
     = get_prompt tmpl_chatml_llava pre
       +:+ match default_system_prompt tmpl_chatml_llava with
           | Some d =>
               (get_prefix_and_suffix tmpl_chatml_llava "system" pre).1 +:+ d
               +:+ (get_prefix_and_suffix tmpl_chatml_llava "system" pre).2
           | None => ""
           end
       +:+ get_prompt_from tmpl_chatml_llava (pre ++ m :: post) (S (length pre)).
Proof.
  intros pre m post.
  exact (conj eq_refl (conj eq_refl
    (get_prompt_system_absent tmpl_chatml_llava pre post m eq_refl eq_refl))).
Defined.

(** The loop from index 0 is the whole of [get_prompt]. *)
Lemma get_prompt_from_0 (T : ChatTemplate) (messages : list Message) :
  get_prompt_from T messages 0 = get_prompt T messages.
Proof. reflexivity. Qed.

(** ** The template registry *)

Lemma register_all_snoc (templates : list ChatTemplate) (t : ChatTemplate)
    (registry : gmap string ChatTemplate) :
  register_all (templates ++ [t]) registry
  = register_chat_template t (register_all templates registry).
Proof. unfold register_all. by rewrite foldl_app. Qed.

Lemma last_registered_snoc (n : string) (templates : list ChatTemplate)
    (t : ChatTemplate) :
  last_registered n (templates ++ [t])
  = if decide (name t = n) then Some t else last_registered n templates.
Proof.
  unfold last_registered. rewrite filter_app, filter_cons, filter_nil.
  destruct (decide (name t = n)).
  - by rewrite last_snoc.
  - by rewrite app_nil_r.
Qed.

Lemma lookup_register_all (templates : list ChatTemplate) (n : string) :
  register_all templates ∅ !! n = last_registered n templates.
Proof.
  induction templates as [|t templates IH] using rev_ind; [done|].
  rewrite register_all_snoc, last_registered_snoc.
  unfold register_chat_template. rewrite lookup_insert.
  destruct (decide (name t = n)); done.
Qed.

Lemma last_registered_None (n : string) (templates : list ChatTemplate) :
  last_registered n templates = None <-> forall t, t ∈ templates -> name t ≠ n.
Proof.
  unfold last_registered. rewrite last_None. split.
  - intros Hnil t Hin Hname.
    assert (Ht : t ∈ filter (fun t => name t = n) templates)
      by (by apply list_elem_of_filter).
    rewrite Hnil in Ht. by apply not_elem_of_nil in Ht.
  - intros Hall. apply elem_of_nil_inv. intros t [Hname Hin]%list_elem_of_filter.
    by apply (Hall t).
Qed.

(** C6: after any sequence of registrations, [get_chat_template] raises the
    [KeyError] of the module (NotFoundError in the spec) exactly when no
    registered template has the name asked for, and returns the template
    registered last under that name otherwise; registering a template and
    asking for its name gives it back, whatever was registered under that
    name before. *)
Theorem get_chat_template_last_registered (templates : list ChatTemplate) (n : string) :
  get_chat_template (register_all templates ∅) n
    = match last_registered n templates with
      | Some t => Ok t
      | None => Raise (KeyError n)
      end
  /\ (get_chat_template (register_all templates ∅) n = Raise (KeyError n)
      <-> forall t, t ∈ templates -> name t ≠ n)
  /\ (forall (registry : gmap string ChatTemplate) (t : ChatTemplate),
        get_chat_template (register_chat_template t registry) (name t) = Ok t).
Proof.
  assert (Hget : get_chat_template (register_all templates ∅) n
                 = match last_registered n templates with
                   | Some t => Ok t
                   | None => Raise (KeyError n)
                   end).
  { unfold get_chat_template. by rewrite lookup_register_all. }
  split; [exact Hget|]. split.
  - rewrite Hget, <- last_registered_None.
    destruct (last_registered n templates); split; intros H; done.
  - intros registry t. unfold get_chat_template, register_chat_template.
    by rewrite lookup_insert_eq.
Qed.

(** ** Template resolution: the loop over the matchers *)

(** A matcher that returns a template ends the loop, when the matchers
    before it all returned [None]. *)
Lemma get_chat_template_by_model_path_first (registry : gmap string ChatTemplate)
    (before after : list MatchingFunction) (f : MatchingFunction)
    (model_path : string) (model_id : option string) (template : ChatTemplate) :
  Forall (fun g => g registry model_path model_id = Ok None) before ->
  f registry model_path model_id = Ok (Some template) ->
  get_chat_template_by_model_path registry (before ++ f :: after) model_path model_id
  = Ok template.
Proof.
  intros Hbefore Hf. induction Hbefore as [|g before Hg _ IH]; cbn.
  - by rewrite Hf.
  - by rewrite Hg.
Qed.

(** When every matcher returns [None], the loop ends in the fallback. *)
Lemma get_chat_template_by_model_path_fallback (registry : gmap string ChatTemplate)
    (funcs : list MatchingFunction) (model_path : string) (model_id : option string) :
  Forall (fun g => g registry model_path model_id = Ok None) funcs ->
  get_chat_template_by_model_path registry funcs model_path model_id
  = get_chat_template registry "default".
Proof.
  intros Hall. induction Hall as [|g funcs Hg _ IH]; cbn; [done|]. by rewrite Hg.
Qed.

(** If the matchers never raise and only return templates with property
    [P], and the fallback template exists and has it, so does the result. *)
Lemma get_chat_template_by_model_path_range (P : ChatTemplate -> Prop)
    (registry : gmap string ChatTemplate) (funcs : list MatchingFunction)
    (model_path : string) (model_id : option string) :
  Forall (fun g => exists r, g registry model_path model_id = Ok r
                             /\ from_option P True r) funcs ->
  (exists t, get_chat_template registry "default" = Ok t /\ P t) ->
  exists t, get_chat_template_by_model_path registry funcs model_path model_id = Ok t
            /\ P t.
Proof.
  intros Hall Hdefault. induction Hall as [|g funcs (r & Hg & Hr) _ IH]; cbn; [done|].
  rewrite Hg. destruct r as [t|]; [by exists t | done].
Qed.

(** ** The loaded registries *)

Lemma return_dbrx_instruct :
  return_template chat_template_registry "dbrx-instruct" = Ok (Some tmpl_dbrx_instruct).
Proof. vm_compute; reflexivity. Qed.
Lemma return_vicuna_v1_1 :
  return_template chat_template_registry "vicuna_v1.1" = Ok (Some tmpl_vicuna_v1_1).
Proof. vm_compute; reflexivity. Qed.
Lemma return_llama_2_chat :
  return_template chat_template_registry "llama-2-chat" = Ok (Some tmpl_llama_2_chat).
Proof. vm_compute; reflexivity. Qed.
Lemma return_llama_3_instruct :
  return_template chat_template_registry "llama-3-instruct"
  = Ok (Some tmpl_llama_3_instruct).
Proof. vm_compute; reflexivity. Qed.
Lemma return_chatml :
  return_template chat_template_registry "chatml" = Ok (Some tmpl_chatml).
Proof. vm_compute; reflexivity. Qed.
Lemma return_chatml_llava :
  return_template chat_template_registry "chatml-llava" = Ok (Some tmpl_chatml_llava).
Proof. vm_compute; reflexivity. Qed.
Lemma return_yi :
  return_template chat_template_registry "yi" = Ok (Some tmpl_yi).
Proof. vm_compute; reflexivity. Qed.
Lemma return_gemma_it :
  return_template chat_template_registry "gemma-it" = Ok (Some tmpl_gemma_it).
Proof. vm_compute; reflexivity. Qed.
Lemma return_yt_chat_v1_2 :
  return_template chat_template_registry "yt-chat-v1.2" = Ok (Some tmpl_yt_chat_v1_2).
Proof. vm_compute; reflexivity. Qed.
Lemma return_yt_chat_v1_3 :
  return_template chat_template_registry "yt-chat-v1.3" = Ok (Some tmpl_yt_chat_v1_3).
Proof. vm_compute; reflexivity. Qed.
Lemma return_yt_chat_v1_6 :
  return_template chat_template_registry "yt-chat-v1.6" = Ok (Some tmpl_yt_chat_v1_6).
Proof. vm_compute; reflexivity. Qed.
Lemma return_yt_chat_v1_7 :
  return_template chat_template_registry "yt-chat-v1.7" = Ok (Some tmpl_yt_chat_v1_7).
Proof. vm_compute; reflexivity. Qed.
Lemma return_yt_chat_v1_8 :
  return_template chat_template_registry "yt-chat-v1.8" = Ok (Some tmpl_yt_chat_v1_8).
Proof. vm_compute; reflexivity. Qed.
Lemma return_c4ai_command_r :
  return_template chat_template_registry "c4ai-command-r"
  = Ok (Some tmpl_c4ai_command_r).
Proof. vm_compute; reflexivity. Qed.
Lemma get_default :
  get_chat_template chat_template_registry "default" = Ok tmpl_default.
Proof. vm_compute; reflexivity. Qed.

Create Rewrite HintDb registry_lookup.
#[local] Hint Rewrite return_dbrx_instruct return_vicuna_v1_1 return_llama_2_chat
  return_llama_3_instruct return_chatml return_chatml_llava return_yi return_gemma_it
  return_yt_chat_v1_2 return_yt_chat_v1_3 return_yt_chat_v1_6 return_yt_chat_v1_7
  return_yt_chat_v1_8 return_c4ai_command_r get_default : registry_lookup.

Ltac unfold_matchers :=
  unfold match_dbrx, match_vicuna, match_llama2_chat, match_llama3_instruct,
    match_chat_ml, match_chat_yi, match_gemma_it, match_ytchat_v12,
    match_c4ai_command_r;
  autorewrite with registry_lookup.

(** Two results that carry templates of different names are different. *)
Ltac by_name H :=
  apply (f_equal (fun r => match r with Ok t => name t | Raise _ => "" end)) in H;
  discriminate H.

Ltac other_template :=
  cbn; split; [ let H := fresh in intros H; by_name H | discriminate ].

Ltac in_list :=
  repeat first [ apply list_elem_of_here | apply list_elem_of_further ].

Lemma matching_function_registry_eq (lower : string -> string) :
  matching_function_registry lower
  = [match_dbrx lower; match_vicuna lower; match_llama2_chat lower;
     match_llama3_instruct lower; match_chat_ml lower; match_chat_yi lower;
     match_gemma_it lower; match_ytchat_v12 lower].
Proof. reflexivity. Qed.

(** No resolvable template is the c4ai-command-r template. *)
Lemma resolvable_not_c4ai (t : ChatTemplate) :
  t ∈ resolvable_templates -> name t ≠ "c4ai-command-r".
Proof.
  assert (H : Forall (fun t => name t ≠ "c4ai-command-r") resolvable_templates)
    by (repeat constructor; discriminate).
  rewrite Forall_forall in H. apply H.
Qed.

(** A registered matcher never raises in the loaded module, and what it
    returns is [None] or one of the resolvable templates. *)
Lemma registered_matcher_range (lower : string -> string) (model_path : string)
    (model_id : option string) :
  Forall (fun g => exists r, g chat_template_registry model_path model_id = Ok r
                             /\ from_option (fun t => t ∈ resolvable_templates) True r)
         (matching_function_registry lower).
Proof.
  rewrite matching_function_registry_eq.
  repeat apply Forall_cons_2; [..|apply Forall_nil_2]; unfold_matchers;
    repeat case_match; (eexists; split; [reflexivity|]); cbn; try done; in_list.
Qed.

Lemma ascii_lower_idem (c : Ascii.ascii) : ascii_lower (ascii_lower c) = ascii_lower c.
Proof. destruct c as [[] [] [] [] [] [] [] []]; reflexivity. Qed.

Lemma lower_ascii_idem (s : string) : lower_ascii (lower_ascii s) = lower_ascii s.
Proof.
  induction s as [|c s IH]; [reflexivity|].
  cbn [lower_ascii]. by rewrite ascii_lower_idem, IH.
Qed.

(** The matchers read the model path only through [lower]. *)
Lemma resolve_lower_ext (lower : string -> string) (p q : string)
    (model_id : option string) :
  lower p = lower q -> resolve lower p model_id = resolve lower q model_id.
Proof.
  intros Hpq. unfold resolve. rewrite matching_function_registry_eq.
  cbn [get_chat_template_by_model_path]. unfold_matchers. by rewrite Hpq.
Qed.

(** ** Template resolution: the claims *)

(** C1, as the code has it: with [model_id = "llama-3"] the resolver returns
    the template of the first matcher registered before
    [match_llama3_instruct] that recognizes the lowercased model path
    (dbrx-instruct, else vicuna_v1.1, else llama-2-chat), and the
    llama-3-instruct template when none of them does; so it returns
    llama-3-instruct exactly when no earlier matcher recognizes the path. *)
Theorem resolve_llama3_model_id (lower : string -> string) (model_path : string) :
  resolve lower model_path (Some "llama-3") = Ok (llama3_id_template (lower model_path))
  /\ (resolve lower model_path (Some "llama-3") = Ok tmpl_llama_3_instruct
      <-> earlier_matcher_recognizes (lower model_path) = false).
Proof.
  unfold resolve. rewrite matching_function_registry_eq.
  cbn [get_chat_template_by_model_path]. unfold_matchers.
  unfold llama3_id_template, earlier_matcher_recognizes. cbn.
  generalize (lower model_path). intros p. split.
  - destruct (str_in "instruct" p), (str_in "dbrx" p); cbn; try reflexivity;
    destruct (str_in "vicuna" p); cbn; try reflexivity;
    destruct (str_in "llava-v1.5" p); cbn; try reflexivity;
    destruct (str_in "llama-2" p), (str_in "chat" p), (str_in "mistral" p),
      (str_in "mixtral" p), (str_in "codellama" p); reflexivity.
  - destruct (str_in "instruct" p), (str_in "dbrx" p); try other_template;
    destruct (str_in "vicuna" p); try other_template;
    destruct (str_in "llava-v1.5" p); try other_template;
    destruct (str_in "llama-2" p), (str_in "chat" p), (str_in "mistral" p),
      (str_in "mixtral" p), (str_in "codellama" p); try other_template;
    done.
Qed.

Lemma resolve_llama3_model_id_witness :
  earlier_matcher_recognizes (lower_ascii "01-ai/Yi-34B-Chat") = false
  /\ resolve lower_ascii "01-ai/Yi-34B-Chat" (Some "llama-3") = Ok tmpl_llama_3_instruct.
Proof.
  assert (H : earlier_matcher_recognizes (lower_ascii "01-ai/Yi-34B-Chat") = false)
    by (vm_compute; reflexivity).
  exact (conj H
    (proj2 (proj2 (resolve_llama3_model_id lower_ascii "01-ai/Yi-34B-Chat")) H)).
Defined.

(** C1 as stated fails: a model path containing "vicuna" is claimed by
    [match_vicuna], registered before [match_llama3_instruct], whatever the
    model id. *)
Lemma resolve_llama3_model_id_vicuna_path :
  resolve lower_ascii "lmsys/vicuna-7b-v1.5" (Some "llama-3") = Ok tmpl_vicuna_v1_1
  /\ resolve lower_ascii "lmsys/vicuna-7b-v1.5" (Some "llama-3")
     ≠ Ok tmpl_llama_3_instruct.
Proof.
  split; [vm_compute; reflexivity|].
  intros H. by_name H.
Qed.

(** C7: in the loaded module the resolver always returns a template, for
    every model path and every model id, absent or present; when no
    registered matcher returns a template the result is the template
    registered under "default". *)
Theorem resolve_never_fails (lower : string -> string) (model_path : string)
    (model_id : option string) :
  (exists template, resolve lower model_path model_id = Ok template)
  /\ (Forall (fun g => g chat_template_registry model_path model_id = Ok None)
             (matching_function_registry lower) ->
      resolve lower model_path model_id = Ok tmpl_default)
  /\ (get_chat_template chat_template_registry "default" = Ok tmpl_default
      /\ name tmpl_default = "default").
Proof.
  split; [|split].
  - destruct (get_chat_template_by_model_path_range
                (fun t => t ∈ resolvable_templates) chat_template_registry
                (matching_function_registry lower) model_path model_id)
      as (t & Ht & _).
    + apply registered_matcher_range.
    + exists tmpl_default. split; [apply get_default | in_list].
    + by exists t.
  - intros Hnone. unfold resolve.
    rewrite get_chat_template_by_model_path_fallback by done. apply get_default.
  - split; [apply get_default | reflexivity].
Qed.

Lemma resolve_never_fails_witness :
  Forall (fun g => g chat_template_registry "gpt2" None = Ok None)
         (matching_function_registry lower_ascii)
  /\ resolve lower_ascii "gpt2" None = Ok tmpl_default.
Proof.
  assert (H : Forall (fun g => g chat_template_registry "gpt2" None = Ok None)
                     (matching_function_registry lower_ascii))
    by (repeat constructor; vm_compute; reflexivity).
  exact (conj H (proj1 (proj2 (resolve_never_fails lower_ascii "gpt2" None)) H)).
Defined.

(** C8: the path "Qwen-Chat-7B" without model id resolves to the chatml
    template; more generally a model path and its lowercased form resolve
    alike, so the substring tests do not see the case of the path. *)
Theorem resolve_qwen_chat :
  resolve lower_ascii "Qwen-Chat-7B" None = Ok tmpl_chatml
  /\ name tmpl_chatml = "chatml"
  /\ lower_ascii "Qwen-Chat-7B" = "qwen-chat-7b"
  /\ forall (model_path : string) (model_id : option string),
       resolve lower_ascii model_path model_id
       = resolve lower_ascii (lower_ascii model_path) model_id.
Proof.
  split; [vm_compute; reflexivity|].
  split; [reflexivity|].
  split; [vm_compute; reflexivity|].
  intros model_path model_id. apply resolve_lower_ext.
  by rewrite lower_ascii_idem.
Qed.

(** C10: the c4ai-command-r template is registered and
    [match_c4ai_command_r] would return it, but that function is not in the
    matcher registry; the path "c4ai-command-r" without model id resolves to
    the default template, as does every path that contains it and that no
    registered matcher recognizes, and no call of the resolver returns the
    c4ai-command-r template. *)
Theorem c4ai_command_r_unreachable :
  resolve lower_ascii "c4ai-command-r" None = Ok tmpl_default
  /\ match_c4ai_command_r lower_ascii chat_template_registry "c4ai-command-r" None
     = Ok (Some tmpl_c4ai_command_r)
  /\ get_chat_template chat_template_registry "c4ai-command-r" = Ok tmpl_c4ai_command_r
  /\ (forall lower : string -> string,
        match_c4ai_command_r lower ∉ matching_function_registry lower)
  /\ (forall (lower : string -> string) (model_path : string),
        str_in "c4ai-command-r" (lower model_path) = true ->
        Forall (fun g => g chat_template_registry model_path None = Ok None)
               (matching_function_registry lower) ->
        match_c4ai_command_r lower chat_template_registry model_path None
          = Ok (Some tmpl_c4ai_command_r)
        /\ resolve lower model_path None = Ok tmpl_default)
  /\ (forall (lower : string -> string) (model_path : string)
             (model_id : option string),
        resolve lower model_path model_id ≠ Ok tmpl_c4ai_command_r).
Proof.
  split; [vm_compute; reflexivity|].
  split; [vm_compute; reflexivity|].
  split; [vm_compute; reflexivity|].
  split; [|split].
  - intros lower Hin.
    pose proof (registered_matcher_range lower "" (Some "c4ai-command-r")) as Hrange.
    rewrite Forall_forall in Hrange.
    destruct (Hrange _ Hin) as (r & Hr & Hres).
    unfold match_c4ai_command_r in Hr. rewrite return_c4ai_command_r in Hr.
    cbn in Hr. injection Hr as <-.
    by apply resolvable_not_c4ai in Hres.
  - intros lower model_path Hin Hnone. split.
    + unfold match_c4ai_command_r. by rewrite Hin, return_c4ai_command_r.
    + unfold resolve.
      rewrite get_chat_template_by_model_path_fallback by done. apply get_default.
  - intros lower model_path model_id Hres.
    destruct (get_chat_template_by_model_path_range
                (fun t => t ∈ resolvable_templates) chat_template_registry
                (matching_function_registry lower) model_path model_id)
      as (t & Ht & Hin).
    + apply registered_matcher_range.
    + exists tmpl_default. split; [apply get_default | in_list].
    + unfold resolve in Hres. rewrite Hres in Ht. injection Ht as <-.
      by apply resolvable_not_c4ai in Hin.
Qed.

Lemma c4ai_command_r_unreachable_witness :
  str_in "c4ai-command-r" (lower_ascii "CohereForAI/c4ai-command-r-v01") = true
  /\ Forall (fun g => g chat_template_registry "CohereForAI/c4ai-command-r-v01" None
                      = Ok None)
            (matching_function_registry lower_ascii)
  /\ match_c4ai_command_r lower_ascii chat_template_registry
       "CohereForAI/c4ai-command-r-v01" None = Ok (Some tmpl_c4ai_command_r)
  /\ resolve lower_ascii "CohereForAI/c4ai-command-r-v01" None = Ok tmpl_default.
Proof.
  assert (H1 : str_in "c4ai-command-r" (lower_ascii "CohereForAI/c4ai-command-r-v01")
               = true) by (vm_compute; reflexivity).
  assert (H2 : Forall (fun g => g chat_template_registry
                                  "CohereForAI/c4ai-command-r-v01" None = Ok None)
                      (matching_function_registry lower_ascii))
    by (repeat constructor; vm_compute; reflexivity).
  exact (conj H1 (conj H2
    (proj1 (proj2 (proj2 (proj2 (proj2 c4ai_command_r_unreachable))))
       lower_ascii "CohereForAI/c4ai-command-r-v01" H1 H2))).
Defined.

(** * Further properties of the module *)

(** ** Strings *)

Lemma str_app_nil_l (s : string) : "" +:+ s = s.
Proof. reflexivity. Qed.

Lemma str_in_unfold (needle hay : string) :
  str_in needle hay
  = String.prefix needle hay
    || match hay with EmptyString => false | String _ hay' => str_in needle hay' end.
Proof. by destruct hay. Qed.

Lemma prefix_nil_l (s : string) : String.prefix "" s = true.
Proof. by destruct s. Qed.

Lemma prefix_app_l (c a b : string) :
  String.prefix c a = true -> String.prefix c (a +:+ b) = true.
Proof.
  revert a. induction c as [|x c IH]; intros a H; [apply prefix_nil_l|].
  destruct a as [|y a]; [done|].
  change (String y a +:+ b) with (String y (a +:+ b)).
  cbn in H |- *. destruct (Ascii.ascii_dec x y); [by apply IH | done].
Qed.

Lemma prefix_app_self (a b : string) : String.prefix a (a +:+ b) = true.
Proof.
  induction a as [|x a IH]; [apply prefix_nil_l|].
  change (String x a +:+ b) with (String x (a +:+ b)).
  cbn. by destruct (Ascii.ascii_dec x x).
Qed.

Lemma str_in_app_self (c b : string) : str_in c (c +:+ b) = true.
Proof. by rewrite str_in_unfold, prefix_app_self. Qed.

Lemma str_in_app_r (c a b : string) : str_in c b = true -> str_in c (a +:+ b) = true.
Proof.
  intros H. induction a as [|x a IH]; [done|].
  change (String x a +:+ b) with (String x (a +:+ b)).
  rewrite str_in_unfold, IH. apply orb_true_r.
Qed.

Lemma str_in_app_l (c a b : string) : str_in c a = true -> str_in c (a +:+ b) = true.
Proof.
  induction a as [|x a IH]; intros H.
  - destruct c; [|done]. by rewrite str_in_unfold, prefix_nil_l.
  - rewrite str_in_unfold in H. apply orb_true_iff in H as [H|H].
    + by rewrite str_in_unfold, prefix_app_l.
    + change (String x a +:+ b) with (String x (a +:+ b)).
      rewrite str_in_unfold, IH by done. apply orb_true_r.
Qed.

(** ** Prompt assembly *)

(** The segment of a message whose content is present. *)
Lemma get_prompt_step_present (T : ChatTemplate) (messages : list Message)
    (prompt : string) (i : nat) (m : Message) (c : string) :
  content m = Some c ->
  get_prompt_step T messages prompt (i, m)
  = prompt +:+ ((get_prefix_and_suffix T (role m) (take i messages)).1 +:+ c
                +:+ (get_prefix_and_suffix T (role m) (take i messages)).2).
Proof.
  intros Hc. unfold get_prompt_step. rewrite Hc, andb_false_r.
  by destruct (get_prefix_and_suffix T (role m) (take i messages)).
Qed.

(** With two or more messages of history no exception applies. *)
Lemma get_prefix_and_suffix_long (T : ChatTemplate) (r : string) (hist : list Message) :
  2 <= length hist -> get_prefix_and_suffix T r hist = plain_lookup T r.
Proof.
  intros Hlen. unfold get_prefix_and_suffix, plain_lookup.
  destruct (default ("", "") (role_prefix_and_suffix T !! r)) as [p s].
  destruct hist as [|m0 [|m1 hist]]; cbn in Hlen; [lia..|].
  destruct (style_eqb (style T) LLAMA2); [|done].
  cbn. by rewrite !andb_false_r.
Qed.

Lemma fold_get_prompt_step_tail (T : ChatTemplate) (messages l : list Message)
    (k : nat) (prompt : string) :
  2 <= k -> 2 <= length messages ->
  Forall (fun m => is_Some (content m)) l ->
  fold_left (get_prompt_step T messages) (enumerate_from k l) prompt
  = prompt +:+ spec_plain_concat T l.
Proof.
  intros Hk Hlen Hl. revert k prompt Hk.
  induction Hl as [|m l [c Hc] Hl IH]; intros k prompt Hk.
  - cbn. by rewrite str_app_nil_r.
  - cbn [enumerate_from fold_left spec_plain_concat foldr].
    rewrite (get_prompt_step_present T messages prompt k m c Hc).
    rewrite get_prefix_and_suffix_long by (rewrite length_take; lia).
    rewrite IH by lia. unfold plain_render. rewrite Hc.
    by rewrite str_app_assoc.
Qed.

(** X1: the prompt of a conversation is a prefix of the prompt of every
    extension of it: later messages only append, in every template. *)
Theorem get_prompt_extends (T : ChatTemplate) (pre rest : list Message) :
  String.prefix (get_prompt T pre) (get_prompt T (pre ++ rest)) = true.
Proof. rewrite get_prompt_split. apply prefix_app_self. Qed.

(** X2: the history only matters for the first two messages: from the
    third message on, messages with present content are rendered by the
    plain role lookup, in every template and style. *)
Theorem get_prompt_after_two (T : ChatTemplate) (m0 m1 : Message)
    (rest : list Message) :
  Forall (fun m => is_Some (content m)) rest ->
  get_prompt T (m0 :: m1 :: rest)
  = get_prompt T [m0; m1] +:+ spec_plain_concat T rest.
Proof.
  intros Hrest. change (m0 :: m1 :: rest) with ([m0; m1] ++ rest).
  rewrite (get_prompt_split T [m0; m1] rest). f_equal.
  unfold get_prompt_from, enumerate. cbn [app enumerate_from drop length].
  rewrite drop_0.
  rewrite fold_get_prompt_step_tail by (cbn; done || lia).
  apply str_app_nil_l.
Qed.

Lemma get_prompt_after_two_witness :
  let rest := [mkMessage "assistant" (Some "Hi!"); mkMessage "user" (Some "Bye")] in
  Forall (fun m => is_Some (content m)) rest
  /\ get_prompt tmpl_llama_2_chat
       (mkMessage "system" (Some "Be brief.") :: mkMessage "user" (Some "Hello!") :: rest)
     = get_prompt tmpl_llama_2_chat
         [mkMessage "system" (Some "Be brief."); mkMessage "user" (Some "Hello!")]
       +:+ spec_plain_concat tmpl_llama_2_chat rest.
Proof.
  intros rest.
  assert (H : Forall (fun m => is_Some (content m)) rest)
    by (repeat constructor; eexists; reflexivity).
  exact (conj H (get_prompt_after_two tmpl_llama_2_chat _ _ rest H)).
Defined.

(** X3: the fused opening of a LLAMA2 template.  A system message with
    content followed by a user message is rendered as user prefix, system
    prefix, system content, system suffix, user content, user suffix; the
    user prefix is written once, before the system block.  The messages
    after them are rendered by the plain role lookup. *)
Theorem get_prompt_llama2_fusion (T : ChatTemplate) (sys usr : string)
    (rest : list Message) :
  style T = LLAMA2 ->
  Forall (fun m => is_Some (content m)) rest ->
  get_prompt T (mkMessage "system" (Some sys) :: mkMessage "user" (Some usr) :: rest)
  = ((plain_lookup T "user").1 +:+ (plain_lookup T "system").1) +:+ sys
    +:+ (plain_lookup T "system").2
    +:+ usr +:+ (plain_lookup T "user").2
    +:+ spec_plain_concat T rest.
Proof.
  intros HT Hrest.
  change (?a :: ?b :: rest) with ([a; b] ++ rest).
  rewrite (get_prompt_split T [_; _] rest).
  unfold get_prompt_from, enumerate. cbn [app enumerate_from drop length].
  rewrite drop_0, fold_get_prompt_step_tail by (cbn; done || lia).
  rewrite str_app_nil_l.
  unfold get_prompt, enumerate. cbn [enumerate_from fold_left].
  destruct (plain_lookup T "user") as [up us] eqn:Hu.
  destruct (plain_lookup T "system") as [sp ss] eqn:Hs.
  unfold plain_lookup in Hu, Hs.
  unfold get_prompt_step, get_prefix_and_suffix. rewrite HT.
  cbn. rewrite Hu, Hs. cbn. by rewrite !str_app_nil_l, !str_app_assoc.
Qed.

Lemma get_prompt_llama2_fusion_witness :
  let rest := [mkMessage "assistant" (Some "Hi!"); mkMessage "user" (Some "Bye")] in
  style tmpl_llama_2_chat = LLAMA2
  /\ Forall (fun m => is_Some (content m)) rest
  /\ get_prompt tmpl_llama_2_chat
       (mkMessage "system" (Some "Be brief.") :: mkMessage "user" (Some "Hello!") :: rest)
     = ((plain_lookup tmpl_llama_2_chat "user").1
        +:+ (plain_lookup tmpl_llama_2_chat "system").1) +:+ "Be brief."
       +:+ (plain_lookup tmpl_llama_2_chat "system").2
       +:+ "Hello!" +:+ (plain_lookup tmpl_llama_2_chat "user").2
       +:+ spec_plain_concat tmpl_llama_2_chat rest.
Proof.
  intros rest.
  assert (H : Forall (fun m => is_Some (content m)) rest)
    by (repeat constructor; eexists; reflexivity).
  exact (conj eq_refl (conj H
    (get_prompt_llama2_fusion tmpl_llama_2_chat "Be brief." "Hello!" rest eq_refl H))).
Defined.

(** X4: [get_prefix_and_suffix] never changes the suffix: in every style and
    for every history the suffix is the one of the plain role lookup; only
    the prefix can differ. *)
Theorem get_prefix_and_suffix_suffix (T : ChatTemplate) (r : string)
    (hist : list Message) :
  (get_prefix_and_suffix T r hist).2 = (plain_lookup T r).2.
Proof.
  unfold get_prefix_and_suffix, plain_lookup.
  destruct (default ("", "") (role_prefix_and_suffix T !! r)) as [p s] eqn:Hr.
  destruct (style_eqb (style T) LLAMA2); [|done].
  destruct (String.eqb r "system" && negb (list_truthy hist)) eqn:HA.
  - apply andb_true_iff in HA as [->%String.eqb_eq _]. rewrite Hr.
    by destruct (default ("", "") (role_prefix_and_suffix T !! "user")).
  - by case_match.
Qed.

(** X5: the two exceptions only concern the roles system and user: for any
    other role (assistant, or a role the template does not know) the answer
    is the plain role lookup, in every style and for every history. *)
Theorem get_prefix_and_suffix_other_role (T : ChatTemplate) (r : string)
    (hist : list Message) :
  r ≠ "system" -> r ≠ "user" ->
  get_prefix_and_suffix T r hist = plain_lookup T r.
Proof.
  intros Hsys%String.eqb_neq Husr%String.eqb_neq.
  unfold get_prefix_and_suffix, plain_lookup. rewrite Hsys, Husr.
  destruct (default ("", "") (role_prefix_and_suffix T !! r)).
  by destruct (style_eqb (style T) LLAMA2).
Qed.

Lemma get_prefix_and_suffix_other_role_witness :
  "assistant" ≠ "system" /\ "assistant" ≠ "user"
  /\ get_prefix_and_suffix tmpl_llama_2_chat "assistant"
       [mkMessage "system" (Some "Be brief.")]
     = plain_lookup tmpl_llama_2_chat "assistant".
Proof.
  assert (H1 : "assistant" ≠ "system") by discriminate.
  assert (H2 : "assistant" ≠ "user") by discriminate.
  exact (conj H1 (conj H2
    (get_prefix_and_suffix_other_role tmpl_llama_2_chat "assistant" _ H1 H2))).
Defined.

(** No exception applies to a system message with a non-empty history, nor
    to a user message whose history is not a single message. *)
Lemma get_prefix_and_suffix_no_exception (T : ChatTemplate) (r : string)
    (hist : list Message) :
  (length hist = 0 -> r ≠ "system") ->
  (length hist = 1 -> r ≠ "user") ->
  get_prefix_and_suffix T r hist = plain_lookup T r.
Proof.
  intros H0 H1. unfold get_prefix_and_suffix, plain_lookup.
  destruct (default ("", "") (role_prefix_and_suffix T !! r)) as [p s].
  destruct (style_eqb (style T) LLAMA2); [|done].
  destruct (String.eqb r "system") eqn:Hsys, (String.eqb r "user") eqn:Husr;
    try apply String.eqb_eq in Hsys; try apply String.eqb_eq in Husr;
    destruct hist as [|m0 [|m1 hist]]; cbn; try done;
    try (by destruct (H0 eq_refl)); try (by destruct (H1 eq_refl)).
Qed.

Lemma get_prompt_step_plain_region (T : ChatTemplate) (messages : list Message)
    (prompt : string) (i : nat) (m : Message) :
  is_Some (content m) ->
  (i = 0 -> role m ≠ "system") ->
  (i = 1 -> role m ≠ "user") ->
  i <= length messages ->
  get_prompt_step T messages prompt (i, m) = prompt +:+ plain_render T m.
Proof.
  intros [c Hc] H0 H1 Hi.
  rewrite (get_prompt_step_present T messages prompt i m c Hc).
  rewrite get_prefix_and_suffix_no_exception
    by (rewrite length_take; intros; (apply H0 || apply H1); lia).
  unfold plain_render. by rewrite Hc.
Qed.

Lemma fold_get_prompt_step_plain_region (T : ChatTemplate) (messages l : list Message)
    (k : nat) (prompt : string) :
  Forall (fun m => is_Some (content m)) l ->
  (k = 0 -> forall m, l !! 0 = Some m -> role m ≠ "system") ->
  (k <= 1 -> forall m, l !! (1 - k) = Some m -> role m ≠ "user") ->
  k + length l <= length messages ->
  fold_left (get_prompt_step T messages) (enumerate_from k l) prompt
  = prompt +:+ spec_plain_concat T l.
Proof.
  intros Hl. revert k prompt.
  induction Hl as [|m l Hm Hl IH]; intros k prompt H0 H1 Hlen.
  - cbn. by rewrite str_app_nil_r.
  - cbn [enumerate_from fold_left spec_plain_concat foldr]. cbn in Hlen.
    rewrite get_prompt_step_plain_region; [|done| | |lia].
    + rewrite IH; [by rewrite str_app_assoc| | |lia].
      * lia.
      * intros Hk m' Hm'. assert (k = 0) as -> by lia. by apply (H1 ltac:(lia) m').
    + intros ->. by apply H0.
    + intros ->. by apply (H1 ltac:(lia)).
Qed.

(** X7: a conversation whose first message is not a system message and
    whose second message is not a user message is rendered without any
    exception, in every style: with all contents present the prompt is the
    plain concatenation. *)
Theorem get_prompt_plain_region (T : ChatTemplate) (messages : list Message) :
  Forall (fun m => is_Some (content m)) messages ->
  (forall m, messages !! 0 = Some m -> role m ≠ "system") ->
  (forall m, messages !! 1 = Some m -> role m ≠ "user") ->
  get_prompt T messages = spec_plain_concat T messages.
Proof.
  intros Hall H0 H1. unfold get_prompt, enumerate.
  by rewrite fold_get_prompt_step_plain_region.
Qed.

Lemma get_prompt_plain_region_witness :
  let messages := [mkMessage "user" (Some "Hello!"); mkMessage "assistant" (Some "Hi!");
                   mkMessage "user" (Some "What can you do?");
                   mkMessage "assistant" (Some "I can chat with you.")] in
  Forall (fun m => is_Some (content m)) messages
  /\ (forall m, messages !! 0 = Some m -> role m ≠ "system")
  /\ (forall m, messages !! 1 = Some m -> role m ≠ "user")
  /\ get_prompt tmpl_llama_2_chat messages = spec_plain_concat tmpl_llama_2_chat messages.
Proof.
  intros messages.
  assert (H : Forall (fun m => is_Some (content m)) messages)
    by (repeat constructor; eexists; reflexivity).
  assert (H0 : forall m, messages !! 0 = Some m -> role m ≠ "system")
    by (intros m [= <-]; discriminate).
  assert (H1 : forall m, messages !! 1 = Some m -> role m ≠ "user")
    by (intros m [= <-]; discriminate).
  exact (conj H (conj H0 (conj H1
    (get_prompt_plain_region tmpl_llama_2_chat messages H H0 H1)))).
Defined.

(** After a first message without content no exception applies. *)
Lemma get_prefix_and_suffix_after_absent (T : ChatTemplate) (r : string)
    (hist : list Message) (m0 : Message) :
  hist !! 0 = Some m0 -> content m0 = None ->
  get_prefix_and_suffix T r hist = plain_lookup T r.
Proof.
  intros Hhd Hc. destruct hist as [|m [|m' hist]]; [done| |].
  - injection Hhd as ->. unfold get_prefix_and_suffix, plain_lookup.
    destruct (default ("", "") (role_prefix_and_suffix T !! r)) as [p s].
    destruct (style_eqb (style T) LLAMA2); [|done].
    cbn. rewrite Hc. cbn. by rewrite !andb_false_r.
  - apply get_prefix_and_suffix_long. cbn. lia.
Qed.

Lemma fold_get_prompt_step_after_absent (T : ChatTemplate) (m0 : Message)
    (tl l : list Message) (k : nat) (prompt : string) :
  content m0 = None -> 1 <= k ->
  Forall (fun m => is_Some (content m)) l ->
  fold_left (get_prompt_step T (m0 :: tl)) (enumerate_from k l) prompt
  = prompt +:+ spec_plain_concat T l.
Proof.
  intros Hc Hk Hl. revert k prompt Hk.
  induction Hl as [|m l [c Hm] Hl IH]; intros k prompt Hk.
  - cbn. by rewrite str_app_nil_r.
  - cbn [enumerate_from fold_left spec_plain_concat foldr].
    rewrite (get_prompt_step_present T _ prompt k m c Hm).
    rewrite (get_prefix_and_suffix_after_absent T _ _ m0)
      by (done || by destruct k; [lia|]).
    rewrite IH by lia. unfold plain_render. rewrite Hm.
    by rewrite str_app_assoc.
Qed.

(** X6: the opening of the example at the end of the module.  In a
    template without default system prompt, a leading system message
    without content is skipped and leaves no trace: the messages after it,
    contents present, are rendered by the plain role lookup, in every
    style. *)
Theorem get_prompt_skipped_system (T : ChatTemplate) (rest : list Message) :
  default_system_prompt T = None ->
  Forall (fun m => is_Some (content m)) rest ->
  get_prompt T (mkMessage "system" None :: rest) = spec_plain_concat T rest.
Proof.
  intros Hd Hrest. unfold get_prompt, enumerate. cbn [enumerate_from fold_left].
  replace (get_prompt_step T _ "" (0, mkMessage "system" None)) with ""
    by (unfold get_prompt_step; cbn; by rewrite Hd).
  by rewrite fold_get_prompt_step_after_absent.
Qed.

Lemma get_prompt_skipped_system_witness :
  let rest := [mkMessage "user" (Some "Hello!"); mkMessage "assistant" (Some "Hi!");
               mkMessage "user" (Some "What can you do?");
               mkMessage "assistant" (Some "I can chat with you.")] in
  default_system_prompt tmpl_llama_2_chat = None
  /\ Forall (fun m => is_Some (content m)) rest
  /\ get_prompt tmpl_llama_2_chat (mkMessage "system" None :: rest)
     = spec_plain_concat tmpl_llama_2_chat rest.
Proof.
  intros rest.
  assert (H : Forall (fun m => is_Some (content m)) rest)
    by (repeat constructor; eexists; reflexivity).
  exact (conj eq_refl (conj H
    (get_prompt_skipped_system tmpl_llama_2_chat rest eq_refl H))).
Defined.

Lemma fold_get_prompt_step_plain_indep (T : ChatTemplate)
    (messages messages' l : list Message) (k k' : nat) (prompt : string) :
  style T = PLAIN ->
  fold_left (get_prompt_step T messages) (enumerate_from k l) prompt
  = fold_left (get_prompt_step T messages') (enumerate_from k' l) prompt.
Proof.
  intros HT. revert k k' prompt.
  induction l as [|m l IH]; intros k k' prompt; [done|].
  cbn [enumerate_from fold_left]. rewrite (IH (S k) (S k')). f_equal.
  unfold get_prompt_step. by rewrite !get_prefix_and_suffix_plain.
Qed.

(** X8: for a PLAIN template assembly is compositional: the prompt of two
    conversations put one after the other is the concatenation of their
    prompts, whatever the roles and whether or not contents are present. *)
Theorem get_prompt_plain_app (T : ChatTemplate) (l1 l2 : list Message) :
  style T = PLAIN ->
  get_prompt T (l1 ++ l2) = get_prompt T l1 +:+ get_prompt T l2.
Proof.
  intros HT. rewrite get_prompt_split. f_equal.
  unfold get_prompt_from, get_prompt, enumerate.
  rewrite drop_enumerate_from, drop_app_length.
  by apply fold_get_prompt_step_plain_indep.
Qed.

Lemma get_prompt_plain_app_witness :
  let l1 := [mkMessage "system" None; mkMessage "user" (Some "Hello!")] in
  let l2 := [mkMessage "system" None; mkMessage "assistant" None] in
  style tmpl_chatml_llava = PLAIN
  /\ get_prompt tmpl_chatml_llava (l1 ++ l2)
     = get_prompt tmpl_chatml_llava l1 +:+ get_prompt tmpl_chatml_llava l2.
Proof.
  intros l1 l2.
  exact (conj eq_refl (get_prompt_plain_app tmpl_chatml_llava l1 l2 eq_refl)).
Defined.

(** X9: no content is lost: the content of every message that has one
    occurs in the prompt, in every template and at every position. *)
Theorem get_prompt_keeps_content (T : ChatTemplate) (messages : list Message)
    (m : Message) (c : string) :
  m ∈ messages -> content m = Some c ->
  str_in c (get_prompt T messages) = true.
Proof.
  intros (pre & post & ->)%list_elem_of_split Hc.
  rewrite get_prompt_split, get_prompt_from_cons.
  rewrite (get_prompt_step_present T pre "" _ m c Hc).
  apply str_in_app_r, str_in_app_l, str_in_app_r, str_in_app_r, str_in_app_self.
Qed.

Lemma get_prompt_keeps_content_witness :
  let messages := [mkMessage "system" (Some "Be brief."); mkMessage "user" (Some "Hello!");
                   mkMessage "assistant" (Some "Hi!")] in
  mkMessage "user" (Some "Hello!") ∈ messages
  /\ content (mkMessage "user" (Some "Hello!")) = Some "Hello!"
  /\ str_in "Hello!" (get_prompt tmpl_llama_2_chat messages) = true.
Proof.
  intros messages.
  assert (H : mkMessage "user" (Some "Hello!") ∈ messages)
    by (apply list_elem_of_further, list_elem_of_here).
  exact (conj H (conj eq_refl
    (get_prompt_keeps_content tmpl_llama_2_chat messages _ "Hello!" H eq_refl))).
Defined.

(** X10: a message that is not a system message and has no content is not
    skipped and raises nothing: it is rendered with the text [None] between
    the prefix and suffix computed for its position. *)
Theorem get_prompt_absent_content (T : ChatTemplate) (pre post : list Message)
    (m : Message) :
  role m ≠ "system" -> content m = None ->
  get_prompt T (pre ++ m :: post)
  = get_prompt T pre
    +:+ ((get_prefix_and_suffix T (role m) pre).1 +:+ "None"
         +:+ (get_prefix_and_suffix T (role m) pre).2)
    +:+ get_prompt_from T (pre ++ m :: post) (S (length pre)).
Proof.
  intros Hrole%String.eqb_neq Hcontent.
  rewrite get_prompt_split, get_prompt_from_cons. do 2 f_equal.
  unfold get_prompt_step. rewrite Hrole, Hcontent, take_ge by done. cbn.
  by destruct (get_prefix_and_suffix T (role m) pre).
Qed.

Lemma get_prompt_absent_content_witness :
  let pre := [mkMessage "user" (Some "Hello!")] in
  let m := mkMessage "assistant" None in
  role m ≠ "system" /\ content m = None
  /\ get_prompt tmpl_chatml (pre ++ m :: [])
     = get_prompt tmpl_chatml pre
       +:+ ((get_prefix_and_suffix tmpl_chatml (role m) pre).1 +:+ "None"
            +:+ (get_prefix_and_suffix tmpl_chatml (role m) pre).2)
       +:+ get_prompt_from tmpl_chatml (pre ++ m :: []) (S (length pre)).
Proof.
  intros pre m.
  assert (H : role m ≠ "system") by discriminate.
  exact (conj H (conj eq_refl (get_prompt_absent_content tmpl_chatml pre [] m H eq_refl))).
Defined.

(** ** The template registry *)

(** X11: registrations under different names are independent: they can be
    made in either order, and registering a template leaves the lookup of
    every other name as it was. *)
Theorem register_chat_template_independent (registry : gmap string ChatTemplate)
    (t1 t2 : ChatTemplate) :
  name t1 ≠ name t2 ->
  register_chat_template t1 (register_chat_template t2 registry)
  = register_chat_template t2 (register_chat_template t1 registry)
  /\ get_chat_template (register_chat_template t1 registry) (name t2)
     = get_chat_template registry (name t2).
Proof.
  intros Hne. unfold register_chat_template, get_chat_template. split.
  - by apply insert_insert_ne.
  - by rewrite lookup_insert_ne.
Qed.

Lemma register_chat_template_independent_witness :
  name tmpl_claude ≠ name tmpl_yi
  /\ register_chat_template tmpl_claude (register_chat_template tmpl_yi ∅)
     = register_chat_template tmpl_yi (register_chat_template tmpl_claude ∅)
  /\ get_chat_template (register_chat_template tmpl_claude ∅) (name tmpl_yi)
     = get_chat_template ∅ (name tmpl_yi).
Proof.
  assert (H : name tmpl_claude ≠ name tmpl_yi) by discriminate.
  exact (conj H (register_chat_template_independent ∅ tmpl_claude tmpl_yi H)).
Defined.

(** What the loaded registry holds under a name is a built-in template of
    that name. *)
Lemma chat_template_registry_lookup (n : string) (t : ChatTemplate) :
  get_chat_template chat_template_registry n = Ok t ->
  t ∈ builtin_templates /\ name t = n.
Proof.
  unfold get_chat_template, chat_template_registry.
  rewrite lookup_register_all. unfold last_registered.
  destruct (last _) as [t'|] eqn:Hlast; [|done]. intros [= ->].
  apply last_Some_elem_of, list_elem_of_filter in Hlast as [Hname Hin]. done.
Qed.

(** X12: the built-in templates have pairwise different names, so none of
    the module's registrations overwrote another: the loaded registry
    returns under a name exactly the built-in template of that name. *)
Theorem chat_template_registry_builtin (n : string) (t : ChatTemplate) :
  get_chat_template chat_template_registry n = Ok t
  <-> t ∈ builtin_templates /\ name t = n.
Proof.
  split; [apply chat_template_registry_lookup|].
  intros [Hin <-]. unfold builtin_templates in Hin.
  repeat (apply elem_of_cons in Hin as [->|Hin]; [vm_compute; reflexivity|]).
  by apply elem_of_nil in Hin.
Qed.

(** X13: among the built-in templates only llama-2-chat has style LLAMA2:
    every other registered template renders messages with present content
    as the plain concatenation. *)
Theorem builtin_plain_except_llama2 (n : string) (t : ChatTemplate)
    (messages : list Message) :
  get_chat_template chat_template_registry n = Ok t ->
  n ≠ "llama-2-chat" ->
  Forall (fun m => is_Some (content m)) messages ->
  style t = PLAIN /\ get_prompt t messages = spec_plain_concat t messages.
Proof.
  intros [Hin Hname]%chat_template_registry_lookup Hn Hall.
  assert (HT : style t = PLAIN).
  { unfold builtin_templates in Hin.
    repeat (apply elem_of_cons in Hin as [->|Hin];
            [first [reflexivity | by destruct Hn]|]).
    by apply elem_of_nil in Hin. }
  split; [done|]. unfold get_prompt, enumerate.
  by rewrite fold_get_prompt_step_plain.
Qed.

Lemma builtin_plain_except_llama2_witness :
  let messages := [mkMessage "system" (Some "Be brief."); mkMessage "user" (Some "Hello!")] in
  get_chat_template chat_template_registry "gemma-it" = Ok tmpl_gemma_it
  /\ "gemma-it" ≠ "llama-2-chat"
  /\ Forall (fun m => is_Some (content m)) messages
  /\ style tmpl_gemma_it = PLAIN
  /\ get_prompt tmpl_gemma_it messages = spec_plain_concat tmpl_gemma_it messages.
Proof.
  intros messages.
  assert (H1 : get_chat_template chat_template_registry "gemma-it" = Ok tmpl_gemma_it)
    by (vm_compute; reflexivity).
  assert (H2 : "gemma-it" ≠ "llama-2-chat") by discriminate.
  assert (H3 : Forall (fun m => is_Some (content m)) messages)
    by (repeat constructor; eexists; reflexivity).
  exact (conj H1 (conj H2 (conj H3
    (builtin_plain_except_llama2 "gemma-it" tmpl_gemma_it messages H1 H2 H3)))).
Defined.

(** ** Template resolution *)

(** For a non-empty literal the guard [model_id and model_id == lit] is
    the comparison alone. *)
Lemma truthy_py_eq (model_id : option string) (lit : string) :
  lit ≠ "" -> truthy model_id && py_eq model_id lit = py_eq model_id lit.
Proof.
  intros Hlit. destruct model_id as [s|]; [|done]. cbn.
  destruct (String.eqb s lit) eqn:Heq; [|apply andb_false_r].
  apply String.eqb_eq in Heq as ->.
  apply String.eqb_neq in Hlit. by rewrite Hlit.
Qed.

(** X14: a model id that no registered matcher compares against is
    ignored: the resolver answers as if no model id had been given.  This
    covers the empty string and the id "c4ai-command-r". *)
Theorem resolve_unknown_model_id (lower : string -> string) (model_path : string)
    (model_id : option string) :
  (forall s, model_id = Some s -> s ∉ known_model_ids) ->
  resolve lower model_path model_id = resolve lower model_path None.
Proof.
  intros Hid. destruct model_id as [s|]; [|done].
  specialize (Hid s eq_refl). unfold known_model_ids in Hid.
  rewrite !not_elem_of_cons in Hid.
  destruct Hid as (H1 & H2 & H3 & H4 & H5 & H6 & H7 & H8 & H9 & H10 & H11 & H12 & H13 & _).
  apply String.eqb_neq in H1, H2, H3, H4, H5, H6, H7, H8, H9, H10, H11, H12, H13.
  unfold resolve. rewrite matching_function_registry_eq.
  cbn [get_chat_template_by_model_path]. unfold_matchers. unfold py_eq.
  rewrite H1, H2, H3, H4, H5, H6, H7, H8, H9, H10, H11, H12, H13.
  rewrite !andb_false_r. by destruct (truthy (Some s)).
Qed.

Lemma resolve_unknown_model_id_witness :
  (forall s, Some "c4ai-command-r" = Some s -> s ∉ known_model_ids)
  /\ resolve lower_ascii "Qwen-Chat-7B" (Some "c4ai-command-r")
     = resolve lower_ascii "Qwen-Chat-7B" None.
Proof.
  assert (H : forall s, Some "c4ai-command-r" = Some s -> s ∉ known_model_ids).
  { intros s [= <-]. unfold known_model_ids.
    rewrite !not_elem_of_cons. repeat split; try discriminate.
    apply not_elem_of_nil. }
  exact (conj H (resolve_unknown_model_id lower_ascii "Qwen-Chat-7B" _ H)).
Defined.

(** X16: the repeated model id test in the second condition of
    [match_dbrx] changes nothing: for every registry the function is the
    single test "the model id is dbrx, or the lowercased path contains dbrx
    and instruct". *)
Theorem match_dbrx_simplified (lower : string -> string)
    (registry : gmap string ChatTemplate) (model_path : string)
    (model_id : option string) :
  match_dbrx lower registry model_path model_id
  = if py_eq model_id "dbrx"
       || (str_in "dbrx" (lower model_path) && str_in "instruct" (lower model_path))
    then return_template registry "dbrx-instruct"
    else Ok None.
Proof.
  unfold match_dbrx. rewrite !truthy_py_eq by discriminate.
  by destruct (py_eq model_id "dbrx").
Qed.

Lemma get_chat_template_by_model_path_cons (registry : gmap string ChatTemplate)
    (f : MatchingFunction) (funcs : list MatchingFunction) (model_path : string)
    (model_id : option string) :
  get_chat_template_by_model_path registry (f :: funcs) model_path model_id
  = match f registry model_path model_id with
    | Raise e => Raise e
    | Ok (Some template) => Ok template
    | Ok None => get_chat_template_by_model_path registry funcs model_path model_id
    end.
Proof. reflexivity. Qed.

(** Proves, matcher by matcher, that the listed matchers never raise in
    the loaded module and only return templates with a given property;
    [tac] proves the property of each template. *)
Ltac matcher_range tac :=
  repeat apply Forall_cons_2; [..|apply Forall_nil_2]; unfold_matchers;
  repeat case_match; (eexists; split; [reflexivity|]); cbn; try done; tac.

(** X15: [match_dbrx] is registered first, so the dbrx-instruct template is
    returned exactly when the model id is dbrx or the lowercased path
    contains both dbrx and instruct, whatever else the path contains and
    whatever other model id is given. *)
Theorem resolve_dbrx_instruct (lower : string -> string) (model_path : string)
    (model_id : option string) :
  resolve lower model_path model_id = Ok tmpl_dbrx_instruct
  <-> py_eq model_id "dbrx"
      || (str_in "dbrx" (lower model_path) && str_in "instruct" (lower model_path))
      = true.
Proof.
  unfold resolve. rewrite matching_function_registry_eq.
  rewrite get_chat_template_by_model_path_cons.
  unfold match_dbrx at 1. rewrite return_dbrx_instruct.
  rewrite !truthy_py_eq by discriminate.
  destruct (py_eq model_id "dbrx"); [done|].
  destruct (str_in "dbrx" (lower model_path) && str_in "instruct" (lower model_path));
    [done|].
  cbn [orb]. split; [|discriminate]. intros Hres.
  destruct (get_chat_template_by_model_path_range
              (fun t => name t ≠ "dbrx-instruct") chat_template_registry
              [match_vicuna lower; match_llama2_chat lower; match_llama3_instruct lower;
               match_chat_ml lower; match_chat_yi lower; match_gemma_it lower;
               match_ytchat_v12 lower] model_path model_id)
    as (t & Ht & Hname).
  - matcher_range discriminate.
  - exists tmpl_default. split; [apply get_default | discriminate].
  - rewrite Hres in Ht. by injection Ht as <-.
Qed.

Ltac unfold_matchers_in_all :=
  unfold match_dbrx, match_vicuna, match_llama2_chat, match_llama3_instruct,
    match_chat_ml, match_chat_yi, match_gemma_it, match_ytchat_v12 in *;
  autorewrite with registry_lookup in *.

(** X17: when no registered matcher recognizes the model path, each of the
    thirteen model ids selects its template: dbrx, vicuna, llama-2, llama-3,
    chatml, chatml-llava, yi, gemma and the five yt-chat versions. *)
Theorem resolve_model_id_alias (lower : string -> string) (model_path alias : string)
    (t : ChatTemplate) :
  Forall (fun g => g chat_template_registry model_path None = Ok None)
         (matching_function_registry lower) ->
  (alias, t) ∈ model_id_aliases ->
  resolve lower model_path (Some alias) = Ok t.
Proof.
  intros Hnone Hin. rewrite matching_function_registry_eq in Hnone.
  repeat (apply Forall_cons_1 in Hnone as [? Hnone]). clear Hnone.
  unfold resolve. rewrite matching_function_registry_eq.
  cbn [get_chat_template_by_model_path].
  unfold_matchers_in_all. cbn in * |-.
  repeat match goal with
         | H : context [if ?c then _ else _] |- _ => destruct c eqn:?; try discriminate H
         end.
  unfold model_id_aliases in Hin.
  repeat (apply elem_of_cons in Hin as [[= -> ->]|Hin]; [cbn; reflexivity|]).
  by apply elem_of_nil in Hin.
Qed.

Lemma resolve_model_id_alias_witness :
  Forall (fun g => g chat_template_registry "my-model" None = Ok None)
         (matching_function_registry lower_ascii)
  /\ ("yt-chat-v1.7", tmpl_yt_chat_v1_7) ∈ model_id_aliases
  /\ resolve lower_ascii "my-model" (Some "yt-chat-v1.7") = Ok tmpl_yt_chat_v1_7.
Proof.
  assert (H1 : Forall (fun g => g chat_template_registry "my-model" None = Ok None)
                      (matching_function_registry lower_ascii))
    by (repeat constructor; vm_compute; reflexivity).
  assert (H2 : ("yt-chat-v1.7", tmpl_yt_chat_v1_7) ∈ model_id_aliases)
    by (unfold model_id_aliases; in_list).
  exact (conj H1 (conj H2
    (resolve_model_id_alias lower_ascii "my-model" "yt-chat-v1.7" _ H1 H2))).
Defined.

(** X18: without a model id the resolver only returns one of ten
    templates: the versions 1.2, 1.6, 1.7 and 1.8 of yt-chat can only be
    selected through the model id; and with or without a model id it never
    returns the claude template, which no matcher names. *)
Theorem resolve_without_model_id (lower : string -> string) (model_path : string) :
  (exists t, resolve lower model_path None = Ok t /\ t ∈ path_templates)
  /\ (forall model_id, resolve lower model_path model_id ≠ Ok tmpl_claude).
Proof.
  split.
  - apply get_chat_template_by_model_path_range.
    + rewrite matching_function_registry_eq.
      repeat apply Forall_cons_2; [..|apply Forall_nil_2]; unfold_matchers;
        cbn [truthy py_eq andb orb]; repeat case_match;
        (eexists; split; [reflexivity|]); cbn; try done; in_list.
    + exists tmpl_default. split; [apply get_default | in_list].
  - intros model_id Hres.
    destruct (get_chat_template_by_model_path_range
                (fun t => name t ≠ "claude") chat_template_registry
                (matching_function_registry lower) model_path model_id)
      as (t & Ht & Hname).
    + rewrite matching_function_registry_eq. matcher_range discriminate.
    + exists tmpl_default. split; [apply get_default | discriminate].
    + unfold resolve in Hres. rewrite Hres in Ht. by injection Ht as <-.
Qed.

Lemma get_chat_template_by_model_path_app (registry : gmap string ChatTemplate)
    (before after : list MatchingFunction) (model_path : string)
    (model_id : option string) :
  get_chat_template_by_model_path registry (before ++ after) model_path model_id
  = if forallb (fun g => silent (g registry model_path model_id)) before
    then get_chat_template_by_model_path registry after model_path model_id
    else get_chat_template_by_model_path registry before model_path model_id.
Proof.
  induction before as [|g before IH]; [done|].
  cbn [app forallb]. rewrite !get_chat_template_by_model_path_cons.
  destruct (g registry model_path model_id) as [[t|]|e]; cbn; done.
Qed.

(** X19: a newly registered matcher has the lowest priority.  It is asked
    only when every matcher registered before it returned [None]; otherwise
    the resolver answers as it did before the registration. *)
Theorem register_matching_function_lowest_priority
    (registry : gmap string ChatTemplate) (funcs : list MatchingFunction)
    (f : MatchingFunction) (model_path : string) (model_id : option string) :
  get_chat_template_by_model_path registry
    (register_chat_template_matching_function f funcs) model_path model_id
  = if forallb (fun g => silent (g registry model_path model_id)) funcs
    then match f registry model_path model_id with
         | Raise e => Raise e
         | Ok (Some template) => Ok template
         | Ok None => get_chat_template registry "default"
         end
    else get_chat_template_by_model_path registry funcs model_path model_id.
Proof.
  unfold register_chat_template_matching_function.
  by rewrite get_chat_template_by_model_path_app.
Qed.

(** X21: the loop stops at the first matcher that does not return [None]:
    after matchers that all returned [None], the result is the template
    that the next matcher returns or the exception it raises, whatever the
    matchers registered after it would say; they are asked only when it
    returns [None] too. *)
Theorem get_chat_template_by_model_path_first_answer
    (registry : gmap string ChatTemplate) (before after : list MatchingFunction)
    (f : MatchingFunction) (model_path : string) (model_id : option string) :
  Forall (fun g => g registry model_path model_id = Ok None) before ->
  get_chat_template_by_model_path registry (before ++ f :: after) model_path model_id
  = match f registry model_path model_id with
    | Raise e => Raise e
    | Ok (Some template) => Ok template
    | Ok None => get_chat_template_by_model_path registry after model_path model_id
    end.
Proof.
  intros Hbefore.
  induction Hbefore as [|g before Hg _ IH]; cbn [app];
    rewrite get_chat_template_by_model_path_cons; [done|].
  by rewrite Hg.
Qed.

Lemma get_chat_template_by_model_path_first_answer_witness :
  let registry := register_all [tmpl_default; tmpl_yi] ∅ in
  let before := [match_dbrx lower_ascii] in
  let after := [match_llama2_chat lower_ascii; match_chat_yi lower_ascii] in
  Forall (fun g => g registry "vicuna-yi" None = Ok None) before
  /\ get_chat_template_by_model_path registry (before ++ match_vicuna lower_ascii :: after)
       "vicuna-yi" None
     = Raise (KeyError "vicuna_v1.1").
Proof.
  intros registry before after.
  assert (H1 : Forall (fun g => g registry "vicuna-yi" None = Ok None) before)
    by (repeat constructor; vm_compute; reflexivity).
  assert (H2 : match_vicuna lower_ascii registry "vicuna-yi" None
               = Raise (KeyError "vicuna_v1.1")) by (vm_compute; reflexivity).
  split; [exact H1|].
  rewrite (get_chat_template_by_model_path_first_answer registry before after
             (match_vicuna lower_ascii) "vicuna-yi" None H1).
  by rewrite H2.
Defined.

(** X20: the fallback needs the template named default.  When every
    matcher returns [None] and no template of that name is registered, the
    resolver raises the [KeyError] of the key "default". *)
Theorem get_chat_template_by_model_path_no_default
    (registry : gmap string ChatTemplate) (funcs : list MatchingFunction)
    (model_path : string) (model_id : option string) :
  Forall (fun g => g registry model_path model_id = Ok None) funcs ->
  registry !! "default" = None ->
  get_chat_template_by_model_path registry funcs model_path model_id
  = Raise (KeyError "default").
Proof.
  intros Hnone Hdefault.
  rewrite get_chat_template_by_model_path_fallback by done.
  unfold get_chat_template. by rewrite Hdefault.
Qed.

Lemma get_chat_template_by_model_path_no_default_witness :
  let registry := register_all [tmpl_chatml; tmpl_yi] ∅ in
  Forall (fun g => g registry "gpt2" None = Ok None) (matching_function_registry lower_ascii)
  /\ registry !! "default" = None
  /\ get_chat_template_by_model_path registry (matching_function_registry lower_ascii)
       "gpt2" None
     = Raise (KeyError "default").
Proof.
  intros registry.
  assert (H1 : Forall (fun g => g registry "gpt2" None = Ok None)
                      (matching_function_registry lower_ascii))
    by (repeat constructor; vm_compute; reflexivity).
  assert (H2 : registry !! "default" = None) by (vm_compute; reflexivity).
  exact (conj H1 (conj H2
    (get_chat_template_by_model_path_no_default registry _ "gpt2" None H1 H2))).
Defined.
